(** * MittFortum API client: the authenticated request pipeline

    A shallow embedding of [custom_components/mittfortum/const.py],
    [api/endpoints.py] and [api/client.py], and the properties of the
    retry dispatcher, the token gate, the envelope decoders, the date-range
    ladder and the cookie router that the specification states.

    Python values are embedded as follows.  Strings are [string], the
    UTF-8 bytes of the text, on which equality, prefix and substring tests
    are those of Python, and whose characters are the byte sequences that
    the leading bytes delimit; integers are [Z]; the floats of the backoff
    delays are binary64 floats ([PrimFloat]); a parsed JSON document is the
    inductive [json], with a dict as an association list in insertion
    order; an exception is a pair of its class and of the text [str(exc)]
    gives; an [async] method that talks to the collaborators is a function
    over the state of the world that also records, in order, the calls it
    makes to them.  Cancellation of a coroutine is not modelled. *)

From Stdlib Require Import ZArith List String Ascii Bool Lia.
From Stdlib Require Import DecimalString.
From Stdlib Require Import Floats.PrimFloat Floats.SpecFloat Floats.FloatOps.
Import ListNotations.

Set Warnings "-inexact-float,-register-all".

Local Open Scope string_scope.
Local Open Scope Z_scope.

(* ================================================================== *)
(** ** Python strings *)

Module PyStr.

(** [needle in hay] on two [str]. *)
Fixpoint contains (needle hay : string) : bool :=
  if String.prefix needle hay then true
  else match hay with
       | EmptyString => false
       | String _ rest => contains needle rest
       end.

(** [s.startswith(p)]. *)
Definition startswith (s p : string) : bool := String.prefix p s.

(** [str(n)] for an [int]. *)
Definition of_Z (n : Z) : string := NilZero.string_of_int (Z.to_int n).

Definition lower_ascii (c : ascii) : ascii :=
  let n := nat_of_ascii c in
  if ((65 <=? n) && (n <=? 90))%nat then ascii_of_nat (n + 32) else c.

(** [s.lower()] on the ASCII letters: header names are ASCII. *)
Fixpoint lower (s : string) : string :=
  match s with
  | EmptyString => EmptyString
  | String c rest => String (lower_ascii c) (lower rest)
  end.

(** Truth value of an attribute that is [None] or a [str]. *)
Definition truthy (o : option string) : bool :=
  match o with
  | None => false
  | Some s => negb (s =? "")%string
  end.

(** The number of bytes of the character whose first byte is [c]: one for
    an ASCII character, two to four after a leading byte of UTF-8. *)
Definition char_width (c : ascii) : nat :=
  let n := nat_of_ascii c in
  if (n <? 192)%nat then 1
  else if (n <? 224)%nat then 2
  else if (n <? 240)%nat then 3
  else 4.

(** The first [n] bytes of a text, or all of it. *)
Fixpoint take (n : nat) (s : string) : string :=
  match n, s with
  | S k, String c rest => String c (take k rest)
  | _, _ => EmptyString
  end.

(** The characters of a text in order, each as the string of its bytes;
    [skip] is the number of bytes that still belong to the character
    before. *)
Fixpoint chars_from (skip : nat) (s : string) : list string :=
  match s with
  | EmptyString => []
  | String c rest =>
      match skip with
      | S k => chars_from k rest
      | O =>
          let more := Nat.pred (char_width c) in
          String c (take more rest) :: chars_from more rest
      end
  end.

(** [list(s)]. *)
Definition chars (s : string) : list string := chars_from 0 s.

(** [sep.join(items)]. *)
Definition join (sep : string) (items : list string) : string :=
  String.concat sep items.

End PyStr.

(* ================================================================== *)
(** ** Exceptions and results *)

(** The classes that the client raises or catches.  [ValueError] stands
    for itself and its subclasses ([json.JSONDecodeError] is one);
    [OtherException] is any further subclass of [Exception] that is none of
    the named ones, such as what the authentication collaborator raises. *)
Inductive exn_class : Type :=
| APIError
| InvalidResponseError
| UnexpectedStatusCodeError
| ValueError
| KeyError
| IndexError
| TypeError
| AttributeError
| OverflowError
| OtherException (name : string).

(** An exception: its class and [str(exc)]. *)
Record exn : Type := mk_exn { exn_class_of : exn_class; exn_str : string }.

(** Modelled from the spec: [exceptions.py] is not among the sources.  The
    specification lets malformed-response and unexpected-status failures
    leave the pipeline verbatim, which [except APIError] in [_get] allows
    only when [InvalidResponseError] and [UnexpectedStatusCodeError] derive
    from [APIError]. *)
Definition isinstance_APIError (e : exn) : bool :=
  match exn_class_of e with
  | APIError | InvalidResponseError | UnexpectedStatusCodeError => true
  | _ => false
  end.

Inductive outcome (A : Type) : Type :=
| Ret (a : A)
| Raise (e : exn).
Arguments Ret {A} a.
Arguments Raise {A} e.

Definition obind {A B} (o : outcome A) (k : A -> outcome B) : outcome B :=
  match o with
  | Ret a => k a
  | Raise e => Raise e
  end.

(** [try: body  except ...: handler]; the handler sees every exception and
    re-raises those its clauses do not name. *)
Definition otry {A} (body : outcome A) (handler : exn -> outcome A) : outcome A :=
  match body with
  | Ret a => Ret a
  | Raise e => handler e
  end.

Declare Scope outcome_scope.
Delimit Scope outcome_scope with outcome.
Notation "x <- c1 ;; c2" := (obind c1 (fun x => c2))
  (at level 61, c1 at next level, right associativity) : outcome_scope.
Notation "c1 ;; c2" := (obind c1 (fun _ => c2))
  (at level 61, right associativity) : outcome_scope.

Definition raise_ {A} (c : exn_class) (msg : string) : outcome A :=
  Raise (mk_exn c msg).

(* ================================================================== *)
(** ** JSON documents as Python sees them *)

Inductive json : Type :=
| JNull
| JBool (b : bool)
| JInt (n : Z)
| JFloat (f : float)
| JStr (s : string)
| JArr (items : list json)
| JObj (members : list (string * json)).

Module PyJson.

Fixpoint assoc (k : string) (m : list (string * json)) : option json :=
  match m with
  | [] => None
  | (k', v) :: rest => if (k =? k')%string then Some v else assoc k rest
  end.

Definition is_str (k : string) (v : json) : bool :=
  match v with
  | JStr s => (s =? k)%string
  | _ => false
  end.

Definition type_name (v : json) : string :=
  match v with
  | JNull => "NoneType"
  | JBool _ => "bool"
  | JInt _ => "int"
  | JFloat _ => "float"
  | JStr _ => "str"
  | JArr _ => "list"
  | JObj _ => "dict"
  end.

(** [k in v] for a string literal [k]: key membership on a dict, element
    membership on a list, substring on a str, [TypeError] otherwise.  The
    texts of the exceptions the interpreter raises are those of CPython
    3.12; no statement depends on them. *)
Definition contains_key (k : string) (v : json) : outcome bool :=
  match v with
  | JObj m => Ret (match assoc k m with Some _ => true | None => false end)
  | JArr l => Ret (existsb (is_str k) l)
  | JStr s => Ret (PyStr.contains k s)
  | _ => raise_ TypeError
           ("argument of type '" ++ type_name v ++ "' is not iterable")
  end.

(** [v[k]] for a string literal [k]. *)
Definition getitem (v : json) (k : string) : outcome json :=
  match v with
  | JObj m => match assoc k m with
              | Some x => Ret x
              | None => raise_ KeyError ("'" ++ k ++ "'")
              end
  | JArr _ => raise_ TypeError "list indices must be integers or slices, not str"
  | JStr _ => raise_ TypeError "string indices must be integers, not 'str'"
  | _ => raise_ TypeError ("'" ++ type_name v ++ "' object is not subscriptable")
  end.

(** [v.get(k, default)]: only a dict has the method. *)
Definition get (v : json) (k : string) (default : json) : outcome json :=
  match v with
  | JObj m => Ret (match assoc k m with Some x => x | None => default end)
  | _ => raise_ AttributeError
           ("'" ++ type_name v ++ "' object has no attribute 'get'")
  end.

(** Truth value. *)
Definition truthy (v : json) : bool :=
  match v with
  | JNull => false
  | JBool b => b
  | JInt n => negb (n =? 0)
  | JFloat f => negb (PrimFloat.eqb f 0%float)
  | JStr s => negb (s =? "")%string
  | JArr l => match l with [] => false | _ => true end
  | JObj m => match m with [] => false | _ => true end
  end.

(** [v[0]]: the first element of a list, the first character of a str. *)
Definition first (v : json) : outcome json :=
  match v with
  | JArr (x :: _) => Ret x
  | JArr [] => raise_ IndexError "list index out of range"
  | JStr s =>
      match PyStr.chars s with
      | c :: _ => Ret (JStr c)
      | [] => raise_ IndexError "string index out of range"
      end
  | JObj _ => raise_ KeyError "0"
  | _ => raise_ TypeError ("'" ++ type_name v ++ "' object is not subscriptable")
  end.

End PyJson.

(** What the client reads of an [httpx] response.  [resp_json] is what
    [response.json()] does: the parsed document, or the [ValueError] of the
    parser. *)
Record Response : Type := mk_response {
  status_code : Z;
  text : string;
  headers : list (string * string);
  resp_json : outcome json
}.

(** The values of the headers called [name], in the order of the
    response; header names compare without case. *)
Definition header_values (hs : list (string * string)) (name : string) : list string :=
  map snd (filter (fun kv => (PyStr.lower (fst kv) =? PyStr.lower name)%string) hs).

(** [response.headers.get(name, default)] of [httpx]: the values of the
    headers of that name joined with ", ", or the default when there is
    none. *)
Definition headers_get (hs : list (string * string)) (name default : string) : string :=
  match header_values hs name with
  | [] => default
  | items => PyStr.join ", " items
  end.

(* ================================================================== *)
(** ** Naive datetimes (the part of [datetime] the client uses) *)

Record datetime : Type := mk_datetime {
  year : Z; month : Z; day : Z;
  hour : Z; minute : Z; second : Z; microsecond : Z
}.

Module PyDate.

Definition is_leap (y : Z) : bool :=
  (y mod 4 =? 0) && (negb (y mod 100 =? 0) || (y mod 400 =? 0)).

Definition days_before_year (y : Z) : Z :=
  let p := y - 1 in p * 365 + p / 4 - p / 100 + p / 400.

Definition days_in_month (y m : Z) : Z :=
  if (m =? 2) && is_leap y then 29
  else nth (Z.to_nat m) [-1; 31; 28; 31; 30; 31; 30; 31; 31; 30; 31; 30; 31] 0.

Definition days_before_month_tbl (m : Z) : Z :=
  nth (Z.to_nat m) [-1; 0; 31; 59; 90; 120; 151; 181; 212; 243; 273; 304; 334] 0.

Definition days_before_month (y m : Z) : Z :=
  days_before_month_tbl m + (if (2 <? m) && is_leap y then 1 else 0).

(** [date.toordinal()]: 1 is 0001-01-01. *)
Definition ymd2ord (y m d : Z) : Z :=
  days_before_year y + days_before_month y m + d.

Definition toordinal (t : datetime) : Z := ymd2ord (year t) (month t) (day t).

Definition DI400Y : Z := 146097.
Definition DI100Y : Z := 36524.
Definition DI4Y : Z := 1461.
Definition MAXORDINAL : Z := 3652059.

(** [date.fromordinal(n)], as [_ord2ymd] computes it. *)
Definition ord2ymd (n0 : Z) : Z * Z * Z :=
  let n := n0 - 1 in
  let n400 := n / DI400Y in
  let n := n mod DI400Y in
  let y := n400 * 400 + 1 in
  let n100 := n / DI100Y in
  let n := n mod DI100Y in
  let n4 := n / DI4Y in
  let n := n mod DI4Y in
  let n1 := n / 365 in
  let n := n mod 365 in
  let y := y + n100 * 100 + n4 * 4 + n1 in
  if (n1 =? 4) || (n100 =? 4) then (y - 1, 12, 31)
  else
    let leapyear := (n1 =? 3) && (negb (n4 =? 24) || (n100 =? 3)) in
    let m := Z.shiftr (n + 50) 5 in
    let preceding := days_before_month_tbl m + (if (2 <? m) && leapyear then 1 else 0) in
    if n <? preceding then
      let m' := m - 1 in
      let preceding' :=
        preceding - (nth (Z.to_nat m') [-1; 31; 28; 31; 30; 31; 30; 31; 31; 30; 31; 30; 31] 0
                     + (if (m' =? 2) && leapyear then 1 else 0)) in
      (y, m', n - preceding' + 1)
    else (y, m, n - preceding + 1).

(** [t.replace(day=d)] for a [d] that every month has. *)
Definition replace_day (t : datetime) (d : Z) : datetime :=
  mk_datetime (year t) (month t) d (hour t) (minute t) (second t) (microsecond t).

(** [t - timedelta(days=n)]: the time of day stays, the date moves by
    whole days, and a date outside years 1..9999 is an [OverflowError]. *)
Definition sub_days (t : datetime) (n : Z) : outcome datetime :=
  let o := toordinal t - n in
  if (0 <? o) && (o <=? MAXORDINAL) then
    let '(y, m, d) := ord2ymd o in
    Ret (mk_datetime y m d (hour t) (minute t) (second t) (microsecond t))
  else raise_ OverflowError "date value out of range".

End PyDate.

(* ================================================================== *)
(** ** const.py *)

Definition get_fortum_base_url (locale : string) : outcome string :=
  if (locale =? "SV")%string then Ret "https://www.fortum.com/se/el"
  else if (locale =? "FI")%string then Ret "https://www.fortum.com/fi/sahkoa"
  else raise_ ValueError ("Unsupported locale: " ++ locale).

Definition get_api_base_url (locale : string) : outcome string :=
  (base <- get_fortum_base_url locale ;; Ret (base ++ "/api"))%outcome.

Definition get_trpc_base_url (locale : string) : outcome string :=
  (base <- get_api_base_url locale ;; Ret (base ++ "/trpc"))%outcome.

Definition OAUTH_BASE_URL : string := "https://sso.fortum.com".

Definition get_auth_index_value (locale : string) : outcome string :=
  if (locale =? "SV")%string then Ret "SeB2COGWLogin"
  else if (locale =? "FI")%string then Ret "FIB2CLogin"
  else raise_ ValueError ("Unsupported locale: " ++ locale).

Definition get_session_url (locale : string) : outcome string :=
  (base <- get_api_base_url locale ;; Ret (base ++ "/auth/session"))%outcome.

Definition get_time_series_base_url (locale : string) : outcome string :=
  (base <- get_trpc_base_url locale ;;
   Ret (base ++ "/loggedIn.timeSeries.listTimeSeries"))%outcome.

Definition get_oauth_redirect_uri (locale : string) : outcome string :=
  (base <- get_api_base_url locale ;;
   Ret (base ++ "/auth/callback/ciamprod"))%outcome.

Definition OAUTH_AUTH_URL : string :=
  OAUTH_BASE_URL ++ "/am/json/realms/root/realms/alpha/authenticate".

Definition get_cost_unit (locale : string) : outcome string :=
  if (locale =? "SV")%string then Ret "SEK"
  else if (locale =? "FI")%string then Ret "EUR"
  else raise_ ValueError ("Unsupported locale: " ++ locale).

(* ================================================================== *)
(** ** Library and model functions the client calls

    [TimeSeries.from_api_response] lives in [models.py]; [isoformat],
    [json.dumps] and [urllib.parse.quote] are library functions that
    return for every value of their argument type; [py_repr] is the text an
    f-string gives a float, a list or a dict. *)

Class Externals : Type := {
  TimeSeries : Type;
  TimeSeries_from_api_response : json -> outcome TimeSeries;
  isoformat : datetime -> string;
  json_dumps : json -> string;
  quote : string -> string;
  py_repr : json -> string
}.

(** [f"{v}"] of a JSON value. *)
Definition py_format `{Externals} (v : json) : string :=
  match v with
  | JStr s => s
  | JNull => "None"
  | JBool true => "True"
  | JBool false => "False"
  | JInt n => PyStr.of_Z n
  | _ => py_repr v
  end.

(* ================================================================== *)
(** ** api/endpoints.py *)

Module APIEndpoints.

(** The f-string lowers the locale first and looks the service up next. *)
Definition get_auth_init_url (locale : string) : outcome string :=
  let lowered := PyStr.lower locale in
  (index <- get_auth_index_value locale ;;
   Ret (OAUTH_AUTH_URL ++ "?locale=" ++ lowered
        ++ "&authIndexType=service&authIndexValue=" ++ PyStr.lower index))%outcome.

Definition get_session_username_url (locale : string) : outcome string :=
  (base <- get_api_base_url locale ;;
   Ret (base ++ "/get-session-username"))%outcome.

Definition get_session_url (locale : string) : outcome string :=
  (base <- get_api_base_url locale ;; Ret (base ++ "/auth/session"))%outcome.

(** The dict [input_data] of [get_time_series_url]. *)
Definition input_data `{Externals} (metering_point_nos : list string)
    (from_date to_date : datetime) (resolution : string) : json :=
  JObj [("0", JObj [("json", JObj [
    ("meteringPointNo", JArr (map JStr metering_point_nos));
    ("fromDate", JStr (isoformat from_date ++ "Z"));
    ("toDate", JStr (isoformat to_date ++ "Z"));
    ("resolution", JStr resolution)])])].

(** The input is encoded first; the locale is looked at last, when the
    f-string of the result is built. *)
Definition get_time_series_url `{Externals} (locale : string)
    (metering_point_nos : list string) (from_date to_date : datetime)
    (resolution : string) : outcome string :=
  let input_json :=
    json_dumps (input_data metering_point_nos from_date to_date resolution) in
  let input_encoded := quote input_json in
  (base <- get_time_series_base_url locale ;;
   Ret (base ++ "?batch=1&input=" ++ input_encoded))%outcome.

End APIEndpoints.

(* ================================================================== *)
(** ** api/client.py: the pure part *)

Definition TOKEN_EXPIRED_RETRY_MSG : string := "Token expired - retry required".

(** [FortumAPIClient._get_cookie_domain]. *)
Definition _get_cookie_domain (cookie_name : string) : string :=
  if (cookie_name =? "amlbcookie")%string || (cookie_name =? "18dddeef3f61363")%string
  then ".sso.fortum.com"
  else if PyStr.startswith cookie_name "__Host-"
          || PyStr.startswith cookie_name "__Secure-"
          || (cookie_name =? "NEXT_LOCALE")%string
  then "www.fortum.com"
  else "www.fortum.com".

(** The clause [except (ValueError, KeyError, IndexError)] of the decoder. *)
Definition decoder_catches (e : exn) : bool :=
  match exn_class_of e with
  | ValueError | KeyError | IndexError => true
  | _ => false
  end.

(** [FortumAPIClient._parse_trpc_response]. *)
Definition _parse_trpc_response (response : Response) : outcome json :=
  otry
    (json_data <- resp_json response ;;
     let fallback :=
       match json_data with
       | JObj _ => Ret json_data
       | _ => if PyJson.truthy json_data then PyJson.first json_data else Ret (JObj [])
       end in
     match json_data with
     | JArr (result :: _) =>
         has_result <- PyJson.contains_key "result" result ;;
         if has_result then
           inner <- PyJson.getitem result "result" ;;
           has_data <- PyJson.contains_key "data" inner ;;
           if has_data then
             r <- PyJson.getitem result "result" ;;
             d <- PyJson.getitem r "data" ;;
             PyJson.getitem d "json"
           else fallback
         else fallback
     | _ => fallback
     end)%outcome
    (fun exc =>
       if decoder_catches exc
       then raise_ InvalidResponseError ("Failed to parse tRPC response: " ++ exn_str exc)
       else Raise exc).

(** [FortumAPIClient._handle_redirect_response]; it never returns. *)
Definition _handle_redirect_response (response : Response) : outcome unit :=
  let location := headers_get (headers response) "Location" "" in
  if PyStr.contains "sign-out" location && PyStr.contains "TokenExpired" location
  then raise_ APIError TOKEN_EXPIRED_RETRY_MSG
  else raise_ APIError ("Unexpected redirect to: " ++ location).

(** The clause [except (ValueError, KeyError)] of the 500 handler. *)
Definition server_error_catches (e : exn) : bool :=
  match exn_class_of e with
  | ValueError | KeyError => true
  | _ => false
  end.

(** [FortumAPIClient._handle_server_error_response]; it never returns. *)
Definition _handle_server_error_response `{Externals} (response : Response)
    : outcome unit :=
  (otry
     (error_data <- resp_json response ;;
      match error_data with
      | JArr (error_item :: _) =>
          has_error <- PyJson.contains_key "error" error_item ;;
          if has_error then
            error_details <- PyJson.getitem error_item "error" ;;
            has_json <- PyJson.contains_key "json" error_details ;;
            if has_json then
              json_error <- PyJson.getitem error_details "json" ;;
              error_msg <- PyJson.get json_error "message" (JStr "Unknown error") ;;
              error_code <- PyJson.get json_error "code" (JStr "Unknown") ;;
              if PyJson.is_str "INTERNAL_SERVER_ERROR" error_msg
              then raise_ APIError
                     "Server error - try reducing date range or changing resolution"
              else raise_ APIError ("Server error: " ++ py_format error_msg)
            else Ret tt
          else Ret tt
      | _ => Ret tt
      end)
     (fun exc => if server_error_catches exc then Ret tt else Raise exc) ;;
   raise_ APIError "Server internal error - try again later")%outcome.

(* ================================================================== *)
(** ** The collaborators and the calls made to them *)

(** A cookie as [client.cookies.set(name, value, domain=domain)] stores it. *)
Definition cookie : Type := (string * string * string)%type.

(** The calls the client makes, in the order it makes them. *)
Inductive event : Type :=
| EvRefresh                          (** [auth_client.refresh_access_token()] *)
| EvAuthenticate                     (** [auth_client.authenticate()] *)
| EvGet (url : string) (hdrs : list (string * string)) (cookies : list cookie)
                                     (** [client.get(url, headers=headers)] *)
| EvSleep (delay : float)            (** [asyncio.sleep(delay)] *)
| EvFetch (from_date to_date : datetime) (resolution : string).
                                     (** the record [_fetch_time_series_data] logs *)

(** Everything outside the client, over a state [World] of its own: the
    [OAuth2AuthClient] (read accessors and operations), the HTTP client,
    the event loop's [sleep] and the clock.  An operation returns the next
    state of the world and, where it can fail, what it returned or raised. *)
Class Collaborators (World : Type) : Type := {
  refresh_token : World -> option string;
  access_token : World -> option string;
  session_cookies : World -> list (string * string);
  needs_renewal : World -> bool;
  is_token_expired : World -> bool;
  refresh_access_token : World -> World * outcome unit;
  authenticate : World -> World * outcome unit;
  client_get : string -> list (string * string) -> list cookie ->
               World -> World * outcome Response;
  sleep : float -> World -> World;
  now : World -> World * datetime
}.

(** The state a method runs in: the world and the calls made so far. *)
Definition St (World : Type) : Type := (World * list event)%type.

(** A method: from a state to the state it leaves and its result. *)
Definition M (World A : Type) : Type := St World -> St World * outcome A.

Definition ret {W A} (a : A) : M W A := fun s => (s, Ret a).

Definition raise {W A} (e : exn) : M W A := fun s => (s, Raise e).

Definition raise_msg {W A} (c : exn_class) (msg : string) : M W A :=
  raise (mk_exn c msg).

Definition bind {W A B} (m : M W A) (k : A -> M W B) : M W B :=
  fun s => match m s with
           | (s', Ret a) => k a s'
           | (s', Raise e) => (s', Raise e)
           end.

(** [try: body  except Exception as e: handler(e)]. *)
Definition try_except {W A} (body : M W A) (handler : exn -> M W A) : M W A :=
  fun s => match body s with
           | (s', Ret a) => (s', Ret a)
           | (s', Raise e) => handler e s'
           end.

(** A pure computation inside a method. *)
Definition pure {W A} (o : outcome A) : M W A := fun s => (s, o).

(** Read an attribute of the collaborator. *)
Definition read {W A} (f : W -> A) : M W A := fun s => (s, Ret (f (fst s))).

Definition emit {W} (ev : event) : M W unit :=
  fun s => ((fst s, (snd s ++ [ev])%list), Ret tt).

(** Call an operation of the world that can raise, recording the call. *)
Definition call {W A} (ev : event) (op : W -> W * outcome A) : M W A :=
  fun s => let (w', r) := op (fst s) in ((w', (snd s ++ [ev])%list), r).

Declare Scope method_scope.
Delimit Scope method_scope with method.
Notation "x <- c1 ;; c2" := (bind c1 (fun x => c2))
  (at level 61, c1 at next level, right associativity) : method_scope.
Notation "c1 ;; c2" := (bind c1 (fun _ => c2))
  (at level 61, right associativity) : method_scope.

Section Client.

Context {World : Type} `{Collaborators World} `{Externals}.

(** [self._locale]. *)
Variable locale : string.

Local Open Scope method_scope.

(** [self._auth_client.refresh_token == "session_based"]. *)
Definition is_session_based (w : World) : bool :=
  match refresh_token w with
  | Some t => (t =? "session_based")%string
  | None => false
  end.

(** The test of [_ensure_valid_token] for a real OAuth2 refresh token. *)
Definition has_real_refresh_token (w : World) : bool :=
  PyStr.truthy (refresh_token w)
  && negb (match refresh_token w with
           | Some t => (t =? "session_based")%string
           | None => false
           end).

(** [FortumAPIClient._ensure_valid_token]. *)
Definition _ensure_valid_token (proactive : bool) : M World unit :=
  renew <- read needs_renewal ;;
  expired <- read is_token_expired ;;
  let needs_refresh :=
    if proactive && renew then true
    else if expired then true
    else false in
  if needs_refresh then
    real <- read has_real_refresh_token ;;
    if real then
      try_except (call EvRefresh refresh_access_token)
                 (fun _ => call EvAuthenticate authenticate)
    else call EvAuthenticate authenticate
  else ret tt.

(** [FortumAPIClient._handle_unauthorized_response]; it never returns. *)
Definition _handle_unauthorized_response : M World unit :=
  try_except
    (old_token <- read access_token ;;
     call EvRefresh refresh_access_token ;;
     new_token <- read access_token ;;
     raise_msg APIError TOKEN_EXPIRED_RETRY_MSG)
    (fun exc =>
       if isinstance_APIError exc then
         if PyStr.contains TOKEN_EXPIRED_RETRY_MSG (exn_str exc) then raise exc
         else raise_msg APIError "Authentication failed - re-authentication required"
       else raise_msg APIError "Authentication failed - re-authentication required").

(** [FortumAPIClient._handle_response]. *)
Definition _handle_response (response : Response) : M World Response :=
  (if status_code response =? 307 then pure (_handle_redirect_response response)
   else if status_code response =? 401 then _handle_unauthorized_response
   else if status_code response =? 403 then
     raise_msg APIError "Access forbidden - authentication may be required"
   else if status_code response =? 500 then
     pure (_handle_server_error_response response)
   else if negb (status_code response =? 200) then
     raise_msg UnexpectedStatusCodeError
       ("Unexpected status code " ++ PyStr.of_Z (status_code response)
        ++ ": " ++ text response)
   else ret tt) ;;
  if (text response =? "")%string
  then raise_msg InvalidResponseError "Empty response from API"
  else ret response.

(** The headers [_get] builds for one attempt. *)
Definition request_headers (url : string) (w : World)
    : outcome (list (string * string)) :=
  (base <- get_fortum_base_url locale ;;
   let hdrs :=
     [("Accept", "application/json");
      ("User-Agent",
       "Mozilla/5.0 (X11; Linux x86_64; rv:138.0) Gecko/20100101 Firefox/138.0");
      ("Content-Type", "application/json");
      ("Referer", base ++ "/inloggad/el")] in
   if negb (PyStr.contains "/api/trpc/" url)
      && negb (PyStr.contains "/api/auth/session" url)
      && PyStr.truthy (access_token w)
      && negb (match access_token w with
               | Some t => (t =? "session_based")%string
               | None => false
               end)
   then Ret (List.app hdrs
                      [("Authorization",
                        "Bearer " ++ match access_token w with
                                     | Some t => t
                                     | None => ""
                                     end)])
   else Ret hdrs)%outcome.

(** The cookies [_get] puts on the client: each session cookie, on the
    domain the router gives its name. *)
Definition request_cookies (w : World) : list cookie :=
  map (fun nv => (fst nv, snd nv, _get_cookie_domain (fst nv))) (session_cookies w).

(** The body of the [try] of [_get]: one physical attempt. *)
Definition attempt (url : string) : M World Response :=
  cookies <- read request_cookies ;;
  hdrs <- (fun s => (s, request_headers url (fst s))) ;;
  response <- call (EvGet url hdrs cookies) (client_get url hdrs cookies) ;;
  _handle_response response.

(** The conversion of an [int] operand of a float operation: the double
    nearest to [n], ties to even, and [OverflowError] when that is beyond
    the largest double. *)
Definition float_of_int (n : Z) : outcome float :=
  let x := SF2Prim (binary_normalize prec emax n 0 false) in
  if PrimFloat.is_infinity x
  then raise_ OverflowError "int too large to convert to float"
  else Ret x.

(** [2**n] as the operand of the float product: for [n >= 0] the [int]
    [2**n], converted; for [n < 0] the float [2.0 ** float(n)], which is
    the power of two, subnormal below [2 ** -1022] and 0.0 below
    [2 ** -1074]. *)
Definition pow2 (n : Z) : outcome float :=
  if n <? 0 then (_ <- float_of_int n ;; Ret (Z.ldexp 1 n))%outcome
  else float_of_int (2 ^ n).

(** The delay [_handle_retry_logic] computes before a retry. *)
Definition retry_delay (session : bool) (retry_count : Z) : outcome float :=
  if session
  then (x <- float_of_int retry_count ;; Ret (5.0 + x * 5.0)%float)%outcome
  else (p <- pow2 retry_count ;; Ret (0.1 * p)%float)%outcome.

(** A method whose recursion is cut by a fuel: [None] when it ran out. *)
Definition MF (A : Type) : Type := St World -> option (St World * outcome A).

(** [FortumAPIClient._handle_retry_logic]; [get] is [self._get]. *)
Definition _handle_retry_logic (get : string -> Z -> MF Response)
    (exc : exn) (url : string) (retry_count _max_retries : Z) : MF Response :=
  fun s =>
    let session := is_session_based (fst s) in
    let max_retries_for_token_error := if session then 4 else 1 in
    if (exn_str exc =? TOKEN_EXPIRED_RETRY_MSG)%string
       && (retry_count <? max_retries_for_token_error)
    then
      match retry_delay session retry_count with
      | Raise e => Some (s, Raise e)
      | Ret delay =>
          let s1 := (sleep delay (fst s), (snd s ++ [EvSleep delay])%list) in
          get url (retry_count + 1) s1
      end
    else if PyStr.contains "Authentication failed" (exn_str exc)
    then Some (s, Raise exc)
    else Some (s, Raise exc).

(** The body of [FortumAPIClient._get]; [get] is the method itself. *)
Definition _get_body (get : string -> Z -> MF Response)
    (url : string) (retry_count : Z) : MF Response :=
  fun s =>
    let session := is_session_based (fst s) in
    let max_retries := if session then 5 else 2 in
    if retry_count >=? max_retries then
      Some (s, Raise (mk_exn APIError
                        ("Maximum retry attempts (" ++ PyStr.of_Z max_retries
                         ++ ") exceeded for " ++ url)))
    else
      match _ensure_valid_token true s with
      | (s1, Raise e) => Some (s1, Raise e)
      | (s1, Ret _) =>
          match attempt url s1 with
          | (s2, Ret response) => Some (s2, Ret response)
          | (s2, Raise exc) =>
              if isinstance_APIError exc
              then _handle_retry_logic get exc url retry_count max_retries s2
              else Some (s2, Raise (mk_exn APIError "GET request failed"))
          end
      end.

Fixpoint _get_fuel (fuel : nat) (url : string) (retry_count : Z) : MF Response :=
  match fuel with
  | O => fun _ => None
  | S fuel' => _get_body (_get_fuel fuel') url retry_count
  end.

(** No call retries once the counter has reached 4, whatever the mode. *)
Definition fuel_for (retry_count : Z) : nat := S (Z.to_nat (4 - retry_count)).

(** [FortumAPIClient._get].  The fuel is enough ([_get_unfold] below), so
    the second branch is never taken. *)
Definition _get (url : string) (retry_count : Z) : M World Response :=
  fun s => match _get_fuel (fuel_for retry_count) url retry_count s with
           | Some r => r
           | None => (s, Raise (mk_exn APIError "GET request failed"))
           end.

(** The clause [except (ValueError, KeyError, TypeError)] of
    [_fetch_time_series_data]. *)
Definition fetch_catches (e : exn) : bool :=
  match exn_class_of e with
  | ValueError | KeyError | TypeError => true
  | _ => false
  end.

(** [[f(item) for item in items]]: the first failure ends it. *)
Fixpoint map_outcome {A B} (f : A -> outcome B) (l : list A) : outcome (list B) :=
  match l with
  | [] => Ret []
  | x :: rest =>
      (y <- f x ;; ys <- map_outcome f rest ;; Ret (y :: ys))%outcome
  end.

(** [FortumAPIClient._fetch_time_series_data]. *)
Definition _fetch_time_series_data (metering_point_nos : list string)
    (from_date to_date : datetime) (resolution : string)
    : M World (list TimeSeries) :=
  url <- pure (APIEndpoints.get_time_series_url locale metering_point_nos
                 from_date to_date resolution) ;;
  emit (EvFetch from_date to_date resolution) ;;
  response <- _get url 0 ;;
  try_except
    (data <- pure (_parse_trpc_response response) ;;
     match data with
     | JArr items => pure (map_outcome TimeSeries_from_api_response items)
     | _ => pure (x <- TimeSeries_from_api_response data ;; Ret [x])%outcome
     end)
    (fun exc =>
       if fetch_catches exc
       then raise_msg InvalidResponseError
              ("Invalid time series response: " ++ exn_str exc)
       else raise exc).

(** [datetime.now()]. *)
Definition datetime_now : M World datetime :=
  fun s => let (w', t) := now (fst s) in ((w', snd s), Ret t).

(** [FortumAPIClient.get_time_series_data]. *)
Definition get_time_series_data (metering_point_nos : list string)
    (from_date to_date : option datetime) (resolution : string)
    : M World (list TimeSeries) :=
  from_date <- match from_date with
               | Some d => ret d
               | None => t <- datetime_now ;;
                         pure (PyDate.sub_days (PyDate.replace_day t 1) 90)
               end ;;
  to_date <- match to_date with
             | Some d => ret d
             | None => datetime_now
             end ;;
  try_except
    (_fetch_time_series_data metering_point_nos from_date to_date resolution)
    (fun exc =>
       if isinstance_APIError exc then
         if PyStr.contains "Server error" (exn_str exc)
            || PyStr.contains "reducing date range" (exn_str exc)
         then
           t30 <- datetime_now ;;
           fallback_from <- pure (PyDate.sub_days t30 30) ;;
           fallback_to <- datetime_now ;;
           try_except
             (_fetch_time_series_data metering_point_nos
                fallback_from fallback_to resolution)
             (fun exc2 =>
                if isinstance_APIError exc2 then
                  t7 <- datetime_now ;;
                  final_from <- pure (PyDate.sub_days t7 7) ;;
                  final_to <- datetime_now ;;
                  _fetch_time_series_data metering_point_nos
                    final_from final_to resolution
                else raise exc2)
         else raise exc
       else raise exc).

(** *** Notions for the statements about the client *)

(** The state after a backoff sleep of [delay] seconds. *)
Definition after_sleep (delay : float) (s : St World) : St World :=
  (sleep delay (fst s), (snd s ++ [EvSleep delay])%list).

(** Whether the dispatcher retries at attempt [retry_count] in state [s]. *)
Definition retries (exc : exn) (retry_count : Z) (s : St World) : bool :=
  (exn_str exc =? TOKEN_EXPIRED_RETRY_MSG)%string
  && (retry_count <? (if is_session_based (fst s) then 4 else 1)).

(** The range "last [n] days" as the ladder computes it: [n] days before
    one reading of the clock, up to the next reading. *)
Definition last_days (n : Z) : M World (datetime * datetime) :=
  (t <- datetime_now ;;
   from_date <- pure (PyDate.sub_days t n) ;;
   to_date <- datetime_now ;;
   ret (from_date, to_date))%method.

End Client.

(* ================================================================== *)
(** ** Projections of a trace *)

(** The physical attempts and the backoff delays of a trace, in order:
    [None] is a [client.get], [Some d] is a [sleep(d)]. *)
Fixpoint io_trace (tr : list event) : list (option float) :=
  match tr with
  | [] => []
  | EvGet _ _ _ :: rest => None :: io_trace rest
  | EvSleep d :: rest => Some d :: io_trace rest
  | _ :: rest => io_trace rest
  end.

(** Number of physical attempts ([client.get] calls). *)
Fixpoint count_gets (tr : list event) : nat :=
  match tr with
  | [] => O
  | EvGet _ _ _ :: rest => S (count_gets rest)
  | _ :: rest => count_gets rest
  end.

(** The delays slept, in order. *)
Fixpoint sleeps (tr : list event) : list float :=
  match tr with
  | [] => []
  | EvSleep d :: rest => d :: sleeps rest
  | _ :: rest => sleeps rest
  end.

(** The calls to the authentication collaborator, in order. *)
Fixpoint auth_calls (tr : list event) : list event :=
  match tr with
  | [] => []
  | EvRefresh :: rest => EvRefresh :: auth_calls rest
  | EvAuthenticate :: rest => EvAuthenticate :: auth_calls rest
  | _ :: rest => auth_calls rest
  end.

(** The date ranges of the time-series requests, in order. *)
Fixpoint fetch_ranges (tr : list event) : list (datetime * datetime) :=
  match tr with
  | [] => []
  | EvFetch f t _ :: rest => (f, t) :: fetch_ranges rest
  | _ :: rest => fetch_ranges rest
  end.

(** What the retry dispatcher lets a logical request do at most, from
    attempt [retry_count] on with [retries] retries left: an attempt, then
    for each retry its delay and one more attempt; the plan ends where the
    delay cannot be computed. *)
Fixpoint retry_plan (session : bool) (retry_count : Z) (retries : nat)
    : list (option float) :=
  None :: match retries with
          | O => []
          | S k =>
              match retry_delay session retry_count with
              | Ret delay => Some delay :: retry_plan session (retry_count + 1) k
              | Raise _ => []
              end
          end.

(** The value at the path [result.data.json] of a list element, when the
    element has that path. *)
Definition nested_json (item : json) : option json :=
  match item with
  | JObj m =>
      match PyJson.assoc "result" m with
      | Some (JObj r) =>
          match PyJson.assoc "data" r with
          | Some (JObj d) => PyJson.assoc "json" d
          | _ => None
          end
      | _ => None
      end
  | _ => None
  end.

(** [k in v] is false. *)
Definition lacks (k : string) (v : json) : bool :=
  match PyJson.contains_key k v with
  | Ret false => true
  | _ => false
  end.

(** The list elements in which the decoder finds no envelope: "result" is
    not in the element, or "data" is not in its "result". *)
Definition no_envelope (item : json) : bool :=
  lacks "result" item
  || match PyJson.getitem item "result" with
     | Ret inner => lacks "data" inner
     | Raise _ => false
     end.

(** The list elements that are an object whose "result" is an object
    whose "data" is an object with no "json". *)
Definition json_missing (item : json) : bool :=
  match item with
  | JObj m =>
      match PyJson.assoc "result" m with
      | Some (JObj r) =>
          match PyJson.assoc "data" r with
          | Some (JObj d) =>
              match PyJson.assoc "json" d with
              | None => true
              | Some _ => false
              end
          | _ => false
          end
      | _ => false
      end
  | _ => false
  end.

(** The test [get_time_series_data] makes on the failure of the first
    request before it tries a shorter range. *)
Definition ladder_trigger (e : exn) : bool :=
  isinstance_APIError e
  && (PyStr.contains "Server error" (exn_str e)
      || PyStr.contains "reducing date range" (exn_str e)).

(** "The first day of the month 90 days ago", read literally. *)
Definition spec_first_day_of_month_90_days_ago (t : datetime) : outcome datetime :=
  (d <- PyDate.sub_days t 90 ;; Ret (PyDate.replace_day d 1))%outcome.

(* ================================================================== *)
(** ** A scripted world, to run the client on concrete inputs *)

Module Sim.

(** The parts of the world that a run changes or that differ between
    runs; the refresh token, which tells the mode, is fixed for a run. *)
Record world : Type := mk_world {
  w_access_token : option string;
  w_cookies : list (string * string);
  w_needs_renewal : bool;
  w_expired : bool;
  w_refresh : outcome unit;          (** what [refresh_access_token] does *)
  w_authenticate : outcome unit;     (** what [authenticate] does *)
  w_responses : list (outcome Response);  (** the next answers of the server *)
  w_then : outcome Response;         (** its answer once those are used up *)
  w_clock : list datetime;           (** the next readings of the clock *)
  w_clock_then : datetime            (** its reading once those are used up *)
}.

Definition serve (w : world) : world * outcome Response :=
  match w_responses w with
  | [] => (w, w_then w)
  | r :: rest =>
      (mk_world (w_access_token w) (w_cookies w)
         (w_needs_renewal w) (w_expired w) (w_refresh w) (w_authenticate w)
         rest (w_then w) (w_clock w) (w_clock_then w), r)
  end.

Definition tick (w : world) : world * datetime :=
  match w_clock w with
  | [] => (w, w_clock_then w)
  | t :: rest =>
      (mk_world (w_access_token w) (w_cookies w)
         (w_needs_renewal w) (w_expired w) (w_refresh w) (w_authenticate w)
         (w_responses w) (w_then w) rest (w_clock_then w), t)
  end.

Definition collaborators (refresh : option string) : Collaborators world := {|
  refresh_token := fun _ => refresh;
  access_token := w_access_token;
  session_cookies := w_cookies;
  needs_renewal := w_needs_renewal;
  is_token_expired := w_expired;
  refresh_access_token := fun w => (w, w_refresh w);
  authenticate := fun w => (w, w_authenticate w);
  client_get := fun _ _ _ => serve;
  sleep := fun _ w => w;
  now := tick
|}.

(** Stand-ins for the library functions; no statement depends on what
    they return. *)
Definition externals : Externals := {|
  TimeSeries := json;
  TimeSeries_from_api_response := fun v => Ret v;
  isoformat := fun t =>
    PyStr.of_Z (year t) ++ "-" ++ PyStr.of_Z (month t) ++ "-" ++ PyStr.of_Z (day t);
  json_dumps := fun _ => "{}";
  quote := fun s => s;
  py_repr := fun _ => "?"
|}.

Definition response (status : Z) (body : string) (hs : list (string * string))
    (parsed : outcome json) : outcome Response :=
  Ret (mk_response status body hs parsed).

Definition not_json : outcome json :=
  raise_ ValueError "Expecting value: line 1 column 1 (char 0)".

Definition unauthorized : outcome Response := response 401 "Unauthorized" [] not_json.

Definition redirect (location : string) : outcome Response :=
  response 307 "" [("location", location)] not_json.

Definition noon (y m d : Z) : datetime := mk_datetime y m d 12 0 0 0.

(** A 500 whose body is the error envelope with the given message. *)
Definition server_error (message : string) : outcome Response :=
  response 500 "[{...}]" []
    (Ret (JArr [JObj [("error", JObj [("json",
            JObj [("message", JStr message); ("code", JInt (-32603))])])]])).

(** A 200 whose body is the success envelope around the given payload. *)
Definition success (payload : json) : outcome Response :=
  response 200 "[{...}]" []
    (Ret (JArr [JObj [("result", JObj [("data", JObj [("json", payload)])])]])).

(** A world whose token needs no renewal and whose collaborator never
    fails. *)
Definition quiet (answers : list (outcome Response)) (then_ : outcome Response)
    (clock : list datetime) : world :=
  mk_world (Some "session_based") [] false false (Ret tt) (Ret tt)
    answers then_ clock (noon 2023 5 15).

(** A world whose token has expired; [refreshed] is what the refresh
    operation does there. *)
Definition expired (refreshed : outcome unit) : world :=
  mk_world (Some "access") [] false true refreshed (Ret tt)
    [] unauthorized [] (noon 2023 5 15).

Definition session_mode : option string := Some "session_based".
Definition credential_mode : option string := Some "real-refresh-token".

(** A world with no state: the server gives every request the same
    answer, the token never needs renewal and the collaborator never
    fails. *)
Definition steady (refresh : option string) (answer : outcome Response)
    : Collaborators unit := {|
  refresh_token := fun _ => refresh;
  access_token := fun _ => Some "session_based";
  session_cookies := fun _ => [];
  needs_renewal := fun _ => false;
  is_token_expired := fun _ => false;
  refresh_access_token := fun w => (w, Ret tt);
  authenticate := fun w => (w, Ret tt);
  client_get := fun _ _ _ w => (w, answer);
  sleep := fun _ w => w;
  now := fun w => (w, noon 2023 5 15)
|}.

Definition run {A} (m : M world A) (w : world) : St world * outcome A := m (w, []).

(** The client's methods in the scripted world. *)
Definition get (refresh : option string) : string -> string -> Z -> M world Response :=
  @_get world (collaborators refresh) externals.
Definition fetch (refresh : option string) :
    string -> list string -> datetime -> datetime -> string -> M world (list json) :=
  @_fetch_time_series_data world (collaborators refresh) externals.
Definition ensure_valid_token (refresh : option string) : bool -> M world unit :=
  @_ensure_valid_token world (collaborators refresh).
Definition time_series (refresh : option string) :
    string -> list string -> option datetime -> option datetime -> string ->
    M world (list json) :=
  @get_time_series_data world (collaborators refresh) externals.

End Sim.

(* ================================================================== *)
(** ** The rest of the client, of the endpoints, and the cost sensor *)

(** [str.format] with keyword arguments, for a template whose replacement fields
    are plain keyword names, as those of [endpoints.py] are: "{{" and "}}"
    stand for a brace, a field is replaced by its keyword, and the first
    field with no keyword raises [KeyError]. *)
Module PyFormat.

Inductive mode : Type :=
| Lit
| Open
| Field (name : string)
| Close.

Fixpoint go (kwargs : list (string * string)) (s : string) (m : mode) : outcome string :=
  match s with
  | EmptyString =>
      match m with
      | Lit => Ret ""
      | Open => raise_ ValueError "Single '{' encountered in format string"
      | Field _ => raise_ ValueError "expected '}' before end of string"
      | Close => raise_ ValueError "Single '}' encountered in format string"
      end
  | String c rest =>
      match m with
      | Lit =>
          if Ascii.eqb c "{" then go kwargs rest Open
          else if Ascii.eqb c "}" then go kwargs rest Close
          else (r <- go kwargs rest Lit ;; Ret (String c r))%outcome
      | Open =>
          if Ascii.eqb c "{" then (r <- go kwargs rest Lit ;; Ret (String "{" r))%outcome
          else if Ascii.eqb c "}" then
            raise_ IndexError "Replacement index 0 out of range for positional args tuple"
          else go kwargs rest (Field (String c EmptyString))
      | Field name =>
          if Ascii.eqb c "}" then
            match List.find (fun kv => (fst kv =? name)%string) kwargs with
            | Some kv => (r <- go kwargs rest Lit ;; Ret (snd kv ++ r))%outcome
            | None => raise_ KeyError ("'" ++ name ++ "'")
            end
          else go kwargs rest (Field (name ++ String c EmptyString))
      | Close =>
          if Ascii.eqb c "}" then (r <- go kwargs rest Lit ;; Ret (String "}" r))%outcome
          else raise_ ValueError "Single '}' encountered in format string"
      end
  end.

Definition format (template : string) (kwargs : list (string * string)) : outcome string :=
  go kwargs template Lit.

End PyFormat.

(** The class attributes of [APIEndpoints] that are plain strings, not
    f-strings: the braces are part of the text. *)
Definition THEME_REALM : string := "{OAUTH_BASE_URL}/openidm/config/ui/themerealm".

Definition USER_DETAILS : string :=
  "{OAUTH_BASE_URL}/am/json/realms/root/realms/alpha/users/{user_id}".

(** [APIEndpoints.get_user_details_url]. *)
Definition get_user_details_url (user_id : string) : outcome string :=
  PyFormat.format USER_DETAILS [("user_id", user_id)].

(** [for x in v]: the elements of a list, the keys of a dict, the
    characters of a str. *)
Definition py_iter (v : json) : outcome (list json) :=
  match v with
  | JArr l => Ret l
  | JObj m => Ret (map (fun kv => JStr (fst kv)) m)
  | JStr s => Ret (map JStr (PyStr.chars s))
  | _ => raise_ TypeError ("'" ++ PyJson.type_name v ++ "' object is not iterable")
  end.

(** The records of [models.py] and the JWT decoder, which the sources do
    not include: each mapper returns a record or raises. *)
Class Models `{Externals} : Type := {
  CustomerDetails : Type;
  CustomerDetails_from_api_response : json -> outcome CustomerDetails;
  MeteringPoint : Type;
  MeteringPoint_from_api_response : json -> outcome MeteringPoint;
  metering_point_no : MeteringPoint -> string;
  ConsumptionData : Type;
  ConsumptionData_from_time_series : TimeSeries -> outcome (list ConsumptionData);
  cost : ConsumptionData -> option float;
  date_time : ConsumptionData -> datetime;
  jwt_decode : string -> outcome json
}.

(** Two more read accessors of the [OAuth2AuthClient]. *)
Class AuthIdentity (World : Type) : Type := {
  session_data : World -> option json;
  id_token : World -> option string
}.

Section ClientRest.

Context {World : Type} `{Collaborators World} `{AuthIdentity World} `{Models}.

Variable locale : string.

Local Open Scope method_scope.

(** The clause [except (KeyError, IndexError, ValueError)] of
    [get_customer_id]. *)
Definition customer_id_catches (e : exn) : bool :=
  match exn_class_of e with
  | KeyError | IndexError | ValueError => true
  | _ => false
  end.

(** The first part of [get_customer_id]: the customer id of the session
    data, when it has a true one. *)
Definition session_customer_id (data : option json) : outcome (option json) :=
  match data with
  | None => Ret None
  | Some d =>
      if PyJson.truthy d then
        (has_user <- PyJson.contains_key "user" d ;;
         if has_user then
           user_data <- PyJson.getitem d "user" ;;
           customer_id <- PyJson.get user_data "customerId" JNull ;;
           if PyJson.truthy customer_id then Ret (Some customer_id) else Ret None
         else Ret None)%outcome
      else Ret None
  end.

(** [FortumAPIClient.get_customer_id]. *)
Definition get_customer_id : M World json :=
  data <- read session_data ;;
  found <- pure (session_customer_id data) ;;
  match found with
  | Some customer_id => ret customer_id
  | None =>
      token <- read id_token ;;
      if negb (PyStr.truthy token) then
        raise_msg APIError "No ID token or session data available"
      else if match token with
              | Some t => (t =? "session_based")%string
              | None => false
              end
      then raise_msg APIError "Customer ID not found in session data"
      else
        try_except
          (pure (payload <- jwt_decode (match token with Some t => t | None => "" end) ;;
                 ids <- PyJson.getitem payload "customerid" ;;
                 entry <- PyJson.first ids ;;
                 PyJson.getitem entry "crmid")%outcome)
          (fun exc =>
             if customer_id_catches exc
             then raise_msg APIError ("Failed to extract customer ID: " ++ exn_str exc)
             else raise exc)
  end.



(** What [get_metering_points] makes of the parsed session response. *)
Definition delivery_sites (json_data : json) : outcome (list MeteringPoint) :=
  (has_user <- PyJson.contains_key "user" json_data ;;
   if has_user then
     user <- PyJson.getitem json_data "user" ;;
     has_sites <- PyJson.contains_key "deliverySites" user ;;
     if has_sites then
       user' <- PyJson.getitem json_data "user" ;;
       sites <- PyJson.getitem user' "deliverySites" ;;
       items <- py_iter sites ;;
       map_outcome MeteringPoint_from_api_response items
     else Ret []
   else Ret [])%outcome.

(** [FortumAPIClient.get_metering_points]. *)
Definition get_metering_points : M World (list MeteringPoint) :=
  url <- pure (get_session_url locale) ;;
  response <- _get locale url 0 ;;
  try_except
    (pure (json_data <- resp_json response ;; delivery_sites json_data)%outcome)
    (fun exc =>
       if fetch_catches exc
       then raise_msg InvalidResponseError
              ("Invalid metering points response: " ++ exn_str exc)
       else raise exc).

(** [consumption_data.extend(ConsumptionData.from_time_series(ts))] over
    the series, in order. *)
Fixpoint expand_series (series : list TimeSeries) : outcome (list ConsumptionData) :=
  match series with
  | [] => Ret []
  | ts :: rest =>
      (items <- ConsumptionData_from_time_series ts ;;
       more <- expand_series rest ;;
       Ret (items ++ more)%list)%outcome
  end.

(** [FortumAPIClient.get_consumption_data]. *)
Definition get_consumption_data (metering_point_nos : option (list string))
    (from_date to_date : option datetime) (resolution : string)
    : M World (list ConsumptionData) :=
  nos <- match metering_point_nos with
         | Some (n :: ns) => ret (n :: ns)
         | _ =>
             metering_points <- get_metering_points ;;
             match metering_points with
             | [] => raise_msg APIError "No metering points found for customer"
             | _ => ret (map metering_point_no metering_points)
             end
         end ;;
  time_series_list <- get_time_series_data locale nos from_date to_date resolution ;;
  pure (expand_series time_series_list).

(** [FortumAPIClient.get_total_consumption]. *)
Definition get_total_consumption : M World (list ConsumptionData) :=
  get_consumption_data None None None "MONTH".

End ClientRest.

(** The names of the four headers of every request. *)
Definition base_header_names : list string :=
  ["Accept"; "User-Agent"; "Content-Type"; "Referer"].

(** [sensors/cost.py]: the three properties of [MittFortumCostSensor] that
    read the data; [data] is [self.coordinator.data], [None] or a list. *)
Module MittFortumCostSensor.

Section Sensor.

Context `{Models}.

(** The builtin [sum(values, 0.0)] on floats.  How it rounds depends on
    the interpreter (plain additions from the left before Python 3.12,
    compensated summation since), so the function is left open. *)
Variable py_sum : list float -> float.

(** [[item.cost for item in data if item.cost is not None]]. *)
Fixpoint cost_values (data : list ConsumptionData) : list float :=
  match data with
  | [] => []
  | item :: rest =>
      match cost item with
      | Some c => c :: cost_values rest
      | None => cost_values rest
      end
  end.

(** [native_value]. *)
Definition native_value (data : option (list ConsumptionData)) : option float :=
  match data with
  | None => None
  | Some [] => Some 0.0%float
  | Some items => Some (py_sum (cost_values items))
  end.

(** [native_unit_of_measurement]. *)
Definition native_unit_of_measurement (locale : string) : outcome string :=
  get_cost_unit locale.

(** [[item for item in data if item.cost is not None]]. *)
Definition cost_data (data : list ConsumptionData) : list ConsumptionData :=
  filter (fun item => match cost item with Some _ => true | None => false end) data.

(** [extra_state_attributes]: [None], or the dict of the three
    attributes. *)
Definition extra_state_attributes (locale : string)
    (data : option (list ConsumptionData)) : outcome (option json) :=
  match data with
  | None => Ret None
  | Some [] => Ret None
  | Some items =>
      let total := Z.of_nat (List.length (cost_data items)) in
      (currency <- get_cost_unit locale ;;
       let latest :=
         match List.last (map Some items) None with
         | Some item => JStr (isoformat (date_time item))
         | None => JNull
         end in
       Ret (Some (JObj [("total_records_with_cost", JInt total);
                        ("currency", JStr currency);
                        ("latest_date", latest)])))%outcome
  end.

End Sensor.

End MittFortumCostSensor.

(** Stand-ins for the records of [models.py] in the scripted world: a
    record is the JSON it was made from, a reading is a cost and a time. *)
Module SimModels.

Definition models : @Models Sim.externals := {|
  CustomerDetails := json;
  CustomerDetails_from_api_response := fun v =>
    (has_user <- PyJson.contains_key "user" v ;;
     if has_user then Ret v else raise_ KeyError "'user'")%outcome;
  MeteringPoint := json;
  MeteringPoint_from_api_response := fun v =>
    (c <- PyJson.getitem v "consumption" ;;
     _ <- PyJson.getitem c "meteringPointNo" ;;
     Ret v)%outcome;
  metering_point_no := fun v =>
    match (c <- PyJson.getitem v "consumption" ;;
           PyJson.getitem c "meteringPointNo")%outcome with
    | Ret (JStr s) => s
    | _ => ""
    end;
  ConsumptionData := (option float * datetime)%type;
  ConsumptionData_from_time_series := fun _ => Ret [];
  cost := fst;
  date_time := snd;
  jwt_decode := fun _ => raise_ (OtherException "DecodeError") "Not enough segments"
|}.

(** [sum(values, 0.0)] by additions from the left. *)
Definition float_sum (values : list float) : float :=
  fold_left PrimFloat.add values 0%float.

Definition identity (data : option json) (token : option string)
    : AuthIdentity Sim.world := {|
  session_data := fun _ => data;
  id_token := fun _ => token
|}.

(** A 200 from the session endpoint with the given document. *)
Definition session (doc : json) : outcome Response :=
  Sim.response 200 "{...}" [] (Ret doc).

End SimModels.

(* ================================================================== *)
(** * Properties *)

(** ** Locales (const.py, endpoints.py) *)

Lemma locale_eqb_neq (a b : string) : a <> b -> (a =? b)%string = false.
Proof. intro Hne. now apply String.eqb_neq. Qed.

(** C10.  The URL builders and [get_cost_unit] are defined on the locales
    "SV" and "FI" only: on each of the two every one of them returns, and
    on any other locale every one of them raises
    [ValueError("Unsupported locale: <locale>")]. *)
Theorem locale_support `{Externals} (locale : string) (nos : list string)
    (from_date to_date : datetime) (resolution : string) :
  (locale = "SV" \/ locale = "FI" ->
     (exists u, get_fortum_base_url locale = Ret u)
     /\ (exists u, get_api_base_url locale = Ret u)
     /\ (exists u, get_trpc_base_url locale = Ret u)
     /\ (exists u, get_session_url locale = Ret u)
     /\ (exists u, get_time_series_base_url locale = Ret u)
     /\ (exists u, get_oauth_redirect_uri locale = Ret u)
     /\ (exists u, APIEndpoints.get_auth_init_url locale = Ret u)
     /\ (exists u, APIEndpoints.get_session_username_url locale = Ret u)
     /\ (exists u, APIEndpoints.get_session_url locale = Ret u)
     /\ (exists u, APIEndpoints.get_time_series_url locale nos from_date to_date
                     resolution = Ret u)
     /\ (exists u, get_cost_unit locale = Ret u))
  /\ (locale <> "SV" -> locale <> "FI" ->
      let unsupported := mk_exn ValueError ("Unsupported locale: " ++ locale) in
      get_fortum_base_url locale = Raise unsupported
      /\ get_api_base_url locale = Raise unsupported
      /\ get_trpc_base_url locale = Raise unsupported
      /\ get_session_url locale = Raise unsupported
      /\ get_time_series_base_url locale = Raise unsupported
      /\ get_oauth_redirect_uri locale = Raise unsupported
      /\ APIEndpoints.get_auth_init_url locale = Raise unsupported
      /\ APIEndpoints.get_session_username_url locale = Raise unsupported
      /\ APIEndpoints.get_session_url locale = Raise unsupported
      /\ APIEndpoints.get_time_series_url locale nos from_date to_date resolution
         = Raise unsupported
      /\ get_cost_unit locale = Raise unsupported).
Proof.
  split.
  - intros [-> | ->]; repeat split; eexists; reflexivity.
  - intros Hsv Hfi unsupported.
    assert (Hbase : get_fortum_base_url locale = Raise unsupported).
    { unfold get_fortum_base_url.
      now rewrite (locale_eqb_neq _ _ Hsv), (locale_eqb_neq _ _ Hfi). }
    assert (Hunit : get_cost_unit locale = Raise unsupported).
    { unfold get_cost_unit.
      now rewrite (locale_eqb_neq _ _ Hsv), (locale_eqb_neq _ _ Hfi). }
    assert (Hindex : get_auth_index_value locale = Raise unsupported).
    { unfold get_auth_index_value.
      now rewrite (locale_eqb_neq _ _ Hsv), (locale_eqb_neq _ _ Hfi). }
    unfold APIEndpoints.get_time_series_url, APIEndpoints.get_session_url,
      APIEndpoints.get_session_username_url, APIEndpoints.get_auth_init_url,
      get_oauth_redirect_uri, get_time_series_base_url, get_session_url,
      get_trpc_base_url, get_api_base_url.
    rewrite Hbase, Hunit, Hindex. cbn [obind]. repeat split.
Qed.

(** The two sides of C10 at "FI" and at the lower-case "sv". *)
Lemma locale_support_witness :
  ((exists u, get_fortum_base_url "FI" = Ret u)
   /\ (exists u, get_cost_unit "FI" = Ret u))
  /\ get_fortum_base_url "sv" = Raise (mk_exn ValueError "Unsupported locale: sv")
  /\ get_cost_unit "sv" = Raise (mk_exn ValueError "Unsupported locale: sv").
Proof.
  pose proof (@locale_support Sim.externals "FI" [] (Sim.noon 2023 5 15)
                (Sim.noon 2023 5 16) "MONTH") as [Hfi _].
  pose proof (@locale_support Sim.externals "sv" [] (Sim.noon 2023 5 15)
                (Sim.noon 2023 5 16) "MONTH") as [_ Hsv].
  specialize (Hfi (or_intror eq_refl)).
  assert (Ha : "sv" <> "SV") by discriminate.
  assert (Hb : "sv" <> "FI") by discriminate.
  specialize (Hsv Ha Hb). cbv zeta in Hsv.
  split; [split; apply Hfi | split; apply Hsv].
Defined.

(** ** The cookie domain router *)

(** C8.  The router sends "amlbcookie" to the identity provider's domain,
    every name with the prefix "__Host-" or "__Secure-" and the name
    "NEXT_LOCALE" to the main site, and any name outside the fixed SSO set
    {"amlbcookie", "18dddeef3f61363"} to the main site as well; it is a
    function of the name alone. *)
Theorem cookie_domain_router (name suffix : string) :
  _get_cookie_domain "amlbcookie" = ".sso.fortum.com"
  /\ _get_cookie_domain ("__Host-" ++ suffix) = "www.fortum.com"
  /\ _get_cookie_domain ("__Secure-" ++ suffix) = "www.fortum.com"
  /\ _get_cookie_domain "__Secure-xyz" = "www.fortum.com"
  /\ _get_cookie_domain "NEXT_LOCALE" = "www.fortum.com"
  /\ _get_cookie_domain "anything_else" = "www.fortum.com"
  /\ _get_cookie_domain name
     = if (name =? "amlbcookie")%string || (name =? "18dddeef3f61363")%string
       then ".sso.fortum.com" else "www.fortum.com".
Proof.
  assert (Hdefault : forall n,
             _get_cookie_domain n
             = if (n =? "amlbcookie")%string || (n =? "18dddeef3f61363")%string
               then ".sso.fortum.com" else "www.fortum.com").
  { intro n. unfold _get_cookie_domain.
    destruct ((n =? "amlbcookie")%string || (n =? "18dddeef3f61363")%string);
      [reflexivity|].
    now destruct (PyStr.startswith n "__Host-" || PyStr.startswith n "__Secure-"
                  || (n =? "NEXT_LOCALE")%string). }
  repeat split; try reflexivity; try apply Hdefault;
    rewrite Hdefault; reflexivity.
Qed.

(** ** The envelope decoder *)

(** C2, as the code has it.  The four examples hold and an object decodes
    to itself.  A non-empty list is decided by its first element: when
    that has the path [result.data.json] through objects, the nested value
    is returned; when "result" is not in it (an object without the member,
    a string without the substring, a list without the string), or "data"
    is not in its "result" in the same sense, the element itself is
    returned; when it is an object whose "result" is an object whose "data"
    is an object with no "json", the decoder raises malformed-response
    instead of returning the element; and in every other case (an element
    or a "result" that is a number, a boolean or [null], or a string or
    list that does contain the name, or a "data" that is no object) it
    raises a [TypeError], which its handler does not convert. *)
Theorem envelope_decoder (status : Z) (raw : string) (hs : list (string * string)) :
  let decode := fun parsed => _parse_trpc_response (mk_response status raw hs parsed) in
  decode (Ret (JArr [JObj [("result", JObj [("data",
             JObj [("json", JObj [("a", JInt 1)])])])]]))
    = Ret (JObj [("a", JInt 1)])
  /\ decode (Ret (JObj [("a", JInt 1)])) = Ret (JObj [("a", JInt 1)])
  /\ decode (Ret (JArr [])) = Ret (JObj [])
  /\ (forall msg, decode (raise_ ValueError msg)
                  = raise_ InvalidResponseError ("Failed to parse tRPC response: " ++ msg))
  /\ (forall members, decode (Ret (JObj members)) = Ret (JObj members))
  /\ (forall item rest v, nested_json item = Some v ->
        decode (Ret (JArr (item :: rest))) = Ret v)
  /\ (forall item rest, no_envelope item = true ->
        decode (Ret (JArr (item :: rest))) = Ret item)
  /\ (forall item rest, json_missing item = true ->
        decode (Ret (JArr (item :: rest)))
        = raise_ InvalidResponseError "Failed to parse tRPC response: 'json'")
  /\ (forall item rest,
        nested_json item = None -> no_envelope item = false ->
        json_missing item = false ->
        exists e, decode (Ret (JArr (item :: rest))) = Raise e
                  /\ exn_class_of e = TypeError).
Proof.
  intro decode. subst decode. unfold _parse_trpc_response.
  split; [reflexivity | split; [reflexivity | split; [reflexivity|]]].
  split; [reflexivity | split; [reflexivity|]].
  split; [|split; [|split]]; intros item rest.
  - intros v Hpath. cbn [resp_json obind otry].
    destruct item as [| | | | |l|m]; try discriminate.
    cbn in Hpath. cbn [PyJson.contains_key PyJson.getitem obind].
    destruct (PyJson.assoc "result" m) as [[| | | | |l|r]|]; try discriminate.
    cbn [PyJson.contains_key PyJson.getitem obind].
    destruct (PyJson.assoc "data" r) as [[| | | | |l|d]|]; try discriminate.
    cbn [PyJson.contains_key PyJson.getitem obind].
    now rewrite Hpath.
  - unfold no_envelope, lacks. intro Hnone. cbn [resp_json obind otry].
    destruct item as [|b|n|f|t|l|m];
      cbn [PyJson.contains_key PyJson.getitem obind orb raise_] in *;
      try discriminate.
    + destruct (PyStr.contains "result" t); [discriminate | reflexivity].
    + destruct (existsb (PyJson.is_str "result") l); [discriminate | reflexivity].
    + destruct (PyJson.assoc "result" m) as [inner|]; [|reflexivity].
      cbn [obind orb] in *.
      destruct (PyJson.contains_key "data" inner) as [[|]|e]; try discriminate.
      reflexivity.
  - intro Hmissing. cbn [resp_json obind otry].
    destruct item as [| | | | |l|m]; try discriminate.
    cbn [json_missing] in Hmissing.
    cbn [PyJson.contains_key PyJson.getitem obind].
    destruct (PyJson.assoc "result" m) as [[| | | | |l|r]|]; try discriminate.
    cbn [PyJson.contains_key PyJson.getitem obind].
    destruct (PyJson.assoc "data" r) as [[| | | | |l|d]|]; try discriminate.
    cbn [PyJson.contains_key PyJson.getitem obind].
    now destruct (PyJson.assoc "json" d).
  - unfold no_envelope, lacks. intros Hpath Hnone Hmissing.
    cbn [resp_json obind otry].
    destruct item as [|b|n|f|t|l|m];
      cbn [PyJson.contains_key PyJson.getitem obind orb raise_] in *;
      try (eexists; split; reflexivity).
    + destruct (PyStr.contains "result" t); [|discriminate].
      eexists; split; reflexivity.
    + destruct (existsb (PyJson.is_str "result") l); [|discriminate].
      eexists; split; reflexivity.
    + cbn [nested_json json_missing] in Hpath, Hmissing.
      destruct (PyJson.assoc "result" m) as [inner|]; [|discriminate].
      cbn [obind].
      destruct inner as [|b|n|f|t|l|r];
        cbn [PyJson.contains_key PyJson.getitem obind orb raise_] in *;
        try (eexists; split; reflexivity).
      * destruct (PyStr.contains "data" t); [|discriminate].
        eexists; split; reflexivity.
      * destruct (existsb (PyJson.is_str "data") l); [|discriminate].
        eexists; split; reflexivity.
      * destruct (PyJson.assoc "data" r) as [d|]; [|discriminate].
        cbn [obind].
        destruct d as [|b|n|f|t|l|d];
          cbn [PyJson.getitem obind raise_];
          try (eexists; split; reflexivity).
        destruct (PyJson.assoc "json" d); discriminate.
Qed.

(** The general rules of [envelope_decoder] on concrete documents: an
    envelope, an element with no "data", a string element, an element
    whose "data" misses "json", and an element whose "data" is [null]. *)
Lemma envelope_decoder_witness :
  _parse_trpc_response
    (mk_response 200 "" []
       (Ret (JArr [JObj [("id", JInt 7);
                         ("result", JObj [("data", JObj [("json", JStr "payload")])])];
                   JNull])))
  = Ret (JStr "payload")
  /\ _parse_trpc_response
       (mk_response 200 "" [] (Ret (JArr [JObj [("result", JObj [("type", JStr "x")])]])))
     = Ret (JObj [("result", JObj [("type", JStr "x")])])
  /\ _parse_trpc_response
       (mk_response 200 "" [] (Ret (JArr [JStr "abc"; JInt 2])))
     = Ret (JStr "abc")
  /\ _parse_trpc_response
       (mk_response 200 "" []
          (Ret (JArr [JObj [("result", JObj [("data", JObj [("other", JNull)])])]])))
     = raise_ InvalidResponseError "Failed to parse tRPC response: 'json'"
  /\ (exists e,
        _parse_trpc_response
          (mk_response 200 "" []
             (Ret (JArr [JObj [("result", JObj [("data", JNull)])]])))
        = Raise e
        /\ exn_class_of e = TypeError).
Proof.
  pose proof (envelope_decoder 200 "" []) as H. cbv zeta in H.
  destruct H as (_ & _ & _ & _ & _ & Hnested & Hfirst & Hmissing & Hother).
  split; [| split; [| split; [| split]]].
  - apply Hnested. reflexivity.
  - apply Hfirst. reflexivity.
  - apply Hfirst. reflexivity.
  - apply Hmissing. reflexivity.
  - apply Hother; reflexivity.
Defined.

(** C2 as stated fails: the element of [[{"result": {"data": {}}}]] has no
    [result.data.json] path, yet the decoder does not return it but raises
    malformed-response; on [[1]] it raises a [TypeError]. *)
Lemma envelope_decoder_counterexample :
  let item := JObj [("result", JObj [("data", JObj [])])] in
  nested_json item = None
  /\ _parse_trpc_response (mk_response 200 "[{...}]" [] (Ret (JArr [item])))
     <> Ret item
  /\ _parse_trpc_response (mk_response 200 "[{...}]" [] (Ret (JArr [item])))
     = raise_ InvalidResponseError "Failed to parse tRPC response: 'json'"
  /\ nested_json (JInt 1) = None
  /\ (exists msg, _parse_trpc_response (mk_response 200 "[1]" [] (Ret (JArr [JInt 1])))
                  = raise_ TypeError msg).
Proof.
  cbv zeta. repeat split; try reflexivity; [discriminate | eexists; reflexivity].
Qed.

(** ** The 500 handler *)

(** Closes a branch of the 500 handler that ends in a raised exception. *)
Ltac server_error_type_error :=
  cbn; eexists; split; [reflexivity | split; [discriminate | tauto]].

(** The handler ends in an exception on every response whose [json()]
    returns or raises a [ValueError], and never in a malformed-response
    one. *)
Lemma server_error_never_malformed `{Externals} (response : Response) :
  (forall e0, resp_json response = Raise e0 -> exn_class_of e0 = ValueError) ->
  exists e, _handle_server_error_response response = Raise e
            /\ exn_class_of e <> InvalidResponseError
            /\ (exn_class_of e = APIError \/ exn_class_of e = TypeError
                \/ exn_class_of e = AttributeError).
Proof.
  intro Hparser. unfold _handle_server_error_response.
  assert (Hgen : exists e : exn,
             raise_ (A:=unit) APIError "Server internal error - try again later" = Raise e
             /\ exn_class_of e <> InvalidResponseError
             /\ (exn_class_of e = APIError \/ exn_class_of e = TypeError
                 \/ exn_class_of e = AttributeError)).
  { eexists; split; [reflexivity | split; [discriminate | now left]]. }
  destruct (resp_json response) as [doc | e0] eqn:Hdoc; cbn [obind otry].
  2:{ unfold server_error_catches. rewrite (Hparser e0 eq_refl). exact Hgen. }
  destruct doc as [| | | | |[|item rest]|m]; try exact Hgen.
  destruct item as [| b | n | f | s | l | m];
    try server_error_type_error;
    cbn [PyJson.contains_key obind otry].
  - destruct (PyStr.contains "error" s); cbn [obind otry PyJson.getitem raise_];
      [server_error_type_error | exact Hgen].
  - destruct (existsb (PyJson.is_str "error") l);
      cbn [obind otry PyJson.getitem raise_];
      [server_error_type_error | exact Hgen].
  - unfold PyJson.getitem.
    destruct (PyJson.assoc "error" m) as [details|]; cbn [obind otry]; [|exact Hgen].
    destruct details as [| b | n | f | s | l | d];
      try server_error_type_error;
      cbn [PyJson.contains_key obind otry].
    + destruct (PyStr.contains "json" s); cbn [obind otry raise_];
        [server_error_type_error | exact Hgen].
    + destruct (existsb (PyJson.is_str "json") l); cbn [obind otry raise_];
        [server_error_type_error | exact Hgen].
    + destruct (PyJson.assoc "json" d) as [je|]; cbn [obind otry]; [|exact Hgen].
      destruct je as [| b | n | f | s | l | jm];
        try server_error_type_error.
      cbn [PyJson.get obind otry].
      destruct (PyJson.is_str "INTERNAL_SERVER_ERROR" _);
        server_error_type_error.
Qed.

(** The three outcomes the 500 handler is written for: the sentinel, any
    other message of a decoded envelope, and a body with no envelope. *)
Lemma server_error_envelope `{Externals} (status : Z) (raw : string)
    (hs : list (string * string)) (item_rest : list (string * json))
    (error_rest : list (string * json)) (json_error : list (string * json))
    (others : list json) (msg : json) :
  PyJson.assoc "message" json_error = Some msg ->
  _handle_server_error_response
    (mk_response status raw hs
       (Ret (JArr (JObj (("error", JObj (("json", JObj json_error) :: error_rest))
                         :: item_rest) :: others))))
  = if PyJson.is_str "INTERNAL_SERVER_ERROR" msg
    then raise_ APIError "Server error - try reducing date range or changing resolution"
    else raise_ APIError ("Server error: " ++ py_format msg).
Proof.
  intro Hmsg. unfold _handle_server_error_response.
  cbn [resp_json obind otry PyJson.contains_key PyJson.getitem PyJson.assoc
       String.eqb Ascii.eqb Bool.eqb PyJson.get].
  rewrite Hmsg.
  now destruct (PyJson.is_str "INTERNAL_SERVER_ERROR" msg).
Qed.

Lemma server_error_no_envelope `{Externals} (status : Z) (raw : string)
    (hs : list (string * string)) (members : list (string * json))
    (others : list json) (msg : string) :
  let generic := raise_ (A:=unit) APIError "Server internal error - try again later" in
  _handle_server_error_response (mk_response status raw hs (raise_ ValueError msg))
  = generic
  /\ _handle_server_error_response (mk_response status raw hs (Ret (JObj members)))
     = generic
  /\ _handle_server_error_response (mk_response status raw hs (Ret (JArr [])))
     = generic
  /\ (PyJson.assoc "error" members = None ->
      _handle_server_error_response
        (mk_response status raw hs (Ret (JArr (JObj members :: others))))
      = generic).
Proof.
  cbv zeta. repeat split; try reflexivity.
  intro Hnone. unfold _handle_server_error_response.
  cbn [resp_json obind otry PyJson.contains_key]. now rewrite Hnone.
Qed.

(** C7 fails on the code at a 500 whose body is [[1]]: no envelope decodes,
    and the handler does not raise the generic server error but a
    [TypeError], which [_get] turns into "GET request failed". *)
Theorem server_error_scalar_item `{Externals} :
  let r := mk_response 500 "[1]" [] (Ret (JArr [JInt 1])) in
  (exists msg, _handle_server_error_response r = raise_ TypeError msg)
  /\ _handle_server_error_response r
     <> raise_ APIError "Server internal error - try again later"
  /\ (let out := Sim.run (Sim.get Sim.session_mode "SV"
                            "https://www.fortum.com/se/el/api/trpc/x" 0)
                   (Sim.quiet [Ret r] Sim.unauthorized []) in
      snd out = raise_ APIError "GET request failed"
      /\ count_gets (snd (fst out)) = 1%nat).
Proof.
  cbv zeta. split; [eexists; reflexivity | split; [discriminate | split; reflexivity]].
Qed.

(* ================================================================== *)
(** ** The request pipeline: termination and its recursion equation *)

Section PipelineFacts.

Context {World : Type} `{Collaborators World} `{Externals}.

Variable locale : string.

(** The dispatcher calls [_get] again only below attempt 4, and then at
    the next attempt. *)
Lemma _handle_retry_logic_ext (get1 get2 : string -> Z -> MF Response)
    (exc : exn) (url : string) (retry_count mx : Z) (s : St World) :
  (retry_count < 4 -> forall s', get1 url (retry_count + 1) s' = get2 url (retry_count + 1) s') ->
  _handle_retry_logic get1 exc url retry_count mx s
  = _handle_retry_logic get2 exc url retry_count mx s.
Proof.
  intro Hext. unfold _handle_retry_logic.
  destruct (exn_str exc =? TOKEN_EXPIRED_RETRY_MSG)%string; cbn [andb]; [|reflexivity].
  destruct (is_session_based (fst s));
    destruct (retry_count <? _) eqn:Hlt; try reflexivity;
    apply Z.ltb_lt in Hlt;
    (destruct (retry_delay _ retry_count); [apply Hext; lia | reflexivity]).
Qed.

Lemma _get_body_ext (get1 get2 : string -> Z -> MF Response)
    (url : string) (retry_count : Z) (s : St World) :
  (retry_count < 4 -> forall s', get1 url (retry_count + 1) s' = get2 url (retry_count + 1) s') ->
  _get_body locale get1 url retry_count s = _get_body locale get2 url retry_count s.
Proof.
  intro Hext. unfold _get_body.
  destruct (retry_count >=? _); [reflexivity|].
  destruct (_ensure_valid_token true s) as [s1 [[]|e]]; [|reflexivity].
  destruct (attempt locale url s1) as [s2 [r|exc]]; [reflexivity|].
  destruct (isinstance_APIError exc); [|reflexivity].
  now apply _handle_retry_logic_ext.
Qed.

Lemma _get_body_returns (get : string -> Z -> MF Response)
    (url : string) (retry_count : Z) (s : St World) :
  (retry_count < 4 -> forall s', get url (retry_count + 1) s' <> None) ->
  _get_body locale get url retry_count s <> None.
Proof.
  intro Hsome. unfold _get_body, _handle_retry_logic.
  destruct (retry_count >=? _); [discriminate|].
  destruct (_ensure_valid_token true s) as [s1 [[]|e]]; [|discriminate].
  destruct (attempt locale url s1) as [s2 [r|exc]]; [discriminate|].
  destruct (isinstance_APIError exc); [|discriminate].
  destruct (exn_str exc =? TOKEN_EXPIRED_RETRY_MSG)%string; cbn [andb].
  - destruct (is_session_based (fst s2));
      destruct (retry_count <? _) eqn:Hlt;
      try (destruct (PyStr.contains _ _); discriminate);
      apply Z.ltb_lt in Hlt;
      (destruct (retry_delay _ retry_count); [apply Hsome; lia | discriminate]).
  - destruct (PyStr.contains _ _); discriminate.
Qed.

(** With more fuel than retries are left, [_get_fuel] returns. *)
Lemma _get_fuel_returns (fuel : nat) :
  forall url retry_count s,
    (Z.to_nat (4 - retry_count) < fuel)%nat ->
    _get_fuel locale fuel url retry_count s <> None.
Proof.
  induction fuel as [|fuel IH]; intros url retry_count s Hfuel; [lia|].
  cbn [_get_fuel]. apply _get_body_returns.
  intros Hlt s'. apply IH. lia.
Qed.

(** ... and what it returns does not depend on the fuel. *)
Lemma _get_fuel_stable (fuel1 : nat) :
  forall fuel2 url retry_count s,
    (Z.to_nat (4 - retry_count) < fuel1)%nat ->
    (Z.to_nat (4 - retry_count) < fuel2)%nat ->
    _get_fuel locale fuel1 url retry_count s = _get_fuel locale fuel2 url retry_count s.
Proof.
  induction fuel1 as [|fuel1 IH]; intros fuel2 url retry_count s H1 H2; [lia|].
  destruct fuel2 as [|fuel2]; [lia|].
  cbn [_get_fuel]. apply _get_body_ext.
  intros Hlt s'. apply IH; lia.
Qed.

(** [_get] never runs out of fuel. *)
Lemma _get_total (url : string) (retry_count : Z) (s : St World) :
  _get_fuel locale (fuel_for retry_count) url retry_count s
  = Some (_get locale url retry_count s).
Proof.
  unfold _get.
  destruct (_get_fuel locale (fuel_for retry_count) url retry_count s) eqn:Hrun;
    [reflexivity|].
  exfalso. revert Hrun. apply _get_fuel_returns. unfold fuel_for. lia.
Qed.

(** [_get] satisfies the recursive definition of the source. *)
Lemma _get_unfold (url : string) (retry_count : Z) (s : St World) :
  Some (_get locale url retry_count s)
  = _get_body locale (fun u r s' => Some (_get locale u r s')) url retry_count s.
Proof.
  rewrite <- _get_total. unfold fuel_for. cbn [_get_fuel].
  apply _get_body_ext. intros Hlt s'.
  rewrite <- _get_total. apply _get_fuel_stable; unfold fuel_for; lia.
Qed.

(** The recursion equation of [_get], one case per way out of the
    method. *)
Lemma _get_eq (url : string) (retry_count : Z) (s : St World) :
  _get locale url retry_count s
  = if retry_count >=? (if is_session_based (fst s) then 5 else 2) then
      (s, Raise (mk_exn APIError
                   ("Maximum retry attempts ("
                    ++ PyStr.of_Z (if is_session_based (fst s) then 5 else 2)
                    ++ ") exceeded for " ++ url)))
    else
      match _ensure_valid_token true s with
      | (s1, Raise e) => (s1, Raise e)
      | (s1, Ret _) =>
          match attempt locale url s1 with
          | (s2, Ret response) => (s2, Ret response)
          | (s2, Raise exc) =>
              if isinstance_APIError exc then
                if retries exc retry_count s2
                then
                  match retry_delay (is_session_based (fst s2)) retry_count with
                  | Ret delay =>
                      _get locale url (retry_count + 1) (after_sleep delay s2)
                  | Raise e => (s2, Raise e)
                  end
                else (s2, Raise exc)
              else (s2, Raise (mk_exn APIError "GET request failed"))
          end
      end.
Proof.
  pose proof (_get_unfold url retry_count s) as Heq.
  unfold _get_body, _handle_retry_logic in Heq.
  destruct (retry_count >=? _); [now injection Heq|].
  destruct (_ensure_valid_token true s) as [s1 [[]|e]]; [|now injection Heq].
  destruct (attempt locale url s1) as [s2 [r|exc]]; [now injection Heq|].
  destruct (isinstance_APIError exc); [|now injection Heq].
  unfold retries, after_sleep.
  destruct ((exn_str exc =? TOKEN_EXPIRED_RETRY_MSG)%string && _).
  - destruct (retry_delay _ retry_count); now injection Heq.
  - destruct (PyStr.contains _ _); now injection Heq.
Qed.

(** The delays of the retries that the dispatcher can make from a first
    call: the counter is between 0 and 3. *)
Lemma retry_delay_returns (session : bool) (retry_count : Z) :
  0 <= retry_count < 4 ->
  exists delay, retry_delay session retry_count = Ret delay.
Proof.
  intro Hrange.
  assert (Hcases : retry_count = 0 \/ retry_count = 1 \/ retry_count = 2
                   \/ retry_count = 3) by lia.
  destruct Hcases as [-> | [-> | [-> | ->]]]; destruct session;
    eexists; vm_compute; reflexivity.
Qed.

End PipelineFacts.

(* ================================================================== *)
(** ** What each method adds to the trace *)

Lemma io_trace_app (a b : list event) :
  io_trace (a ++ b) = (io_trace a ++ io_trace b)%list.
Proof.
  induction a as [|ev a IH]; [reflexivity|].
  destruct ev; cbn [io_trace app]; now rewrite IH.
Qed.

Lemma count_gets_io (tr : list event) :
  count_gets tr = List.length (filter (fun o => match o with None => true | Some _ => false end)
                                 (io_trace tr)).
Proof.
  induction tr as [|ev tr IH]; [reflexivity|].
  destruct ev; cbn [count_gets io_trace filter List.length]; now rewrite <- IH.
Qed.

Lemma sleeps_io (tr : list event) :
  sleeps tr = flat_map (fun o => match o with None => [] | Some d => [d] end) (io_trace tr).
Proof.
  induction tr as [|ev tr IH]; [reflexivity|].
  destruct ev; cbn [sleeps io_trace flat_map app]; now rewrite <- IH.
Qed.

Lemma auth_calls_app (a b : list event) :
  auth_calls (a ++ b) = (auth_calls a ++ auth_calls b)%list.
Proof.
  induction a as [|ev a IH]; [reflexivity|].
  destruct ev; cbn [auth_calls app]; now rewrite IH.
Qed.

Section PipelineTraces.

Context {World : Type} `{Collaborators World} `{Externals}.

Variable locale : string.

(** The gate makes no request and sleeps no delay. *)
Lemma gate_io (proactive : bool) (s : St World) :
  io_trace (snd (fst (_ensure_valid_token proactive s))) = io_trace (snd s).
Proof.
  unfold _ensure_valid_token, bind, read, try_except, call, ret.
  destruct (if proactive && needs_renewal (fst s) then true
            else if is_token_expired (fst s) then true else false); [|reflexivity].
  cbn [fst snd].
  destruct (has_real_refresh_token (fst s)).
  - destruct (refresh_access_token (fst s)) as [w1 [[]|e]]; cbn [fst snd].
    + rewrite io_trace_app. cbn. now rewrite app_nil_r.
    + destruct (authenticate w1) as [w2 r]; cbn [fst snd].
      rewrite !io_trace_app. cbn. now rewrite !app_nil_r.
  - destruct (authenticate (fst s)) as [w1 r]; cbn [fst snd].
    rewrite io_trace_app. cbn. now rewrite app_nil_r.
Qed.

(** Nor does the classification of a response. *)
Lemma handle_response_io (response : Response) (s : St World) :
  io_trace (snd (fst (_handle_response response s))) = io_trace (snd s).
Proof.
  unfold _handle_response, bind.
  destruct (status_code response =? 307).
  { unfold pure. now destruct (_handle_redirect_response response) as [[]|e];
      [destruct (text response =? "")%string|]. }
  destruct (status_code response =? 401).
  { unfold _handle_unauthorized_response, try_except, bind, read, call, raise_msg, raise.
    cbn [fst snd].
    destruct (refresh_access_token (fst s)) as [w1 [[]|e]]; cbn [fst snd].
    - cbn. rewrite io_trace_app. cbn. now rewrite app_nil_r.
    - destruct (isinstance_APIError e); [destruct (PyStr.contains _ _)|];
        cbn [fst snd]; rewrite io_trace_app; cbn; now rewrite app_nil_r. }
  destruct (status_code response =? 403); [reflexivity|].
  destruct (status_code response =? 500).
  { unfold pure. now destruct (_handle_server_error_response response) as [[]|e];
      [destruct (text response =? "")%string|]. }
  destruct (negb (status_code response =? 200)); [reflexivity|].
  unfold ret. now destruct (text response =? "")%string.
Qed.

(** One pass through the [try] of [_get] makes exactly one request,
    unless the headers cannot be built, and then it fails with an
    exception that is no [APIError] and leaves the state as it was. *)
Lemma attempt_io (url : string) (s : St World) :
  io_trace (snd (fst (attempt locale url s))) = (io_trace (snd s) ++ [None])%list
  \/ (fst (attempt locale url s) = s
      /\ exists e, snd (attempt locale url s) = Raise e
                   /\ isinstance_APIError e = false).
Proof.
  unfold attempt, bind, read. cbn [fst snd].
  destruct (request_headers locale url (fst s)) as [hdrs|e] eqn:Hhdrs.
  - left. unfold call. cbn [fst snd].
    destruct (client_get url hdrs (request_cookies (fst s)) (fst s)) as [w1 [r|e]];
      cbn [fst snd];
      try (rewrite handle_response_io; cbn [snd]);
      now rewrite io_trace_app.
  - right. split; [reflexivity|]. exists e. split; [reflexivity|].
    unfold request_headers, get_fortum_base_url in Hhdrs.
    destruct (locale =? "SV")%string; [|destruct (locale =? "FI")%string];
      cbn [obind raise_] in Hhdrs;
      try (destruct (_ && _); discriminate).
    now injection Hhdrs as <-.
Qed.

(** A backoff sleep adds its delay. *)
Lemma after_sleep_io (delay : float) (s : St World) :
  io_trace (snd (after_sleep delay s)) = (io_trace (snd s) ++ [Some delay])%list.
Proof. unfold after_sleep. cbn [snd]. now rewrite io_trace_app. Qed.

(** In a world that stays in one mode, the requests and delays of
    [_get] from attempt [retry_count] on follow the retry plan of the
    mode, up to where the call ends. *)
Lemma get_follows_plan (session : bool) (url : string) :
  (forall w, is_session_based w = session) ->
  forall (k : nat) (retry_count : Z) (s : St World),
    Z.to_nat ((if session then 4 else 1) - retry_count) = k ->
    exists n, io_trace (snd (fst (_get locale url retry_count s)))
              = (io_trace (snd s) ++ firstn n (retry_plan session retry_count k))%list.
Proof.
  intros Hmode k.
  induction k as [|k IH]; intros retry_count s Hk; rewrite _get_eq.
  all: destruct (retry_count >=? _);
    [exists 0%nat; cbn; now rewrite app_nil_r|].
  all: pose proof (gate_io true s) as Hgate;
    destruct (_ensure_valid_token true s) as [s1 [[]|e]]; cbn [fst snd] in *;
    [|exists 0%nat; cbn; now rewrite app_nil_r].
  all: pose proof (attempt_io url s1) as Hatt;
    destruct (attempt locale url s1) as [s2 [r|exc]]; cbn [fst snd] in *.
  all: try (destruct Hatt as [Hatt | [_ (e & He & _)]]; [|discriminate];
            exists 1%nat; cbn; now rewrite Hatt, Hgate).
  all: destruct (isinstance_APIError exc) eqn:Hapi.
  all: try (destruct Hatt as [Hatt | [Hatt _]];
            [exists 1%nat; cbn; now rewrite Hatt, Hgate
            |exists 0%nat; cbn; subst s2; now rewrite Hgate, app_nil_r]).
  all: destruct (retries exc retry_count s2) eqn:Hretry;
    [|destruct Hatt as [Hatt | [Hatt _]];
      [exists 1%nat; cbn; now rewrite Hatt, Hgate
      |exists 0%nat; cbn; subst s2; now rewrite Hgate, app_nil_r]].
  all: unfold retries in Hretry; rewrite Hmode in Hretry;
    apply andb_prop in Hretry; destruct Hretry as [_ Hlt];
    apply Z.ltb_lt in Hlt.
  - exfalso. destruct session; lia.
  - destruct Hatt as [Hatt | [_ (e & He & Hne)]];
      [|injection He as <-; congruence].
    rewrite Hmode. cbn [retry_plan].
    destruct (retry_delay session retry_count) as [delay|e].
    + destruct (IH (retry_count + 1) (after_sleep delay s2)) as [n Hn];
        [destruct session; lia|].
      exists (S (S n)). rewrite Hn, after_sleep_io, Hatt, Hgate.
      cbn [firstn]. now rewrite <- !app_assoc.
    + exists 1%nat. cbn. now rewrite Hatt, Hgate.
Qed.

End PipelineTraces.

(* ================================================================== *)
(** ** A request that always meets an expired token *)

Section AlwaysUnauthorized.

Context {World : Type} `{Collaborators World} `{Externals}.

Variable locale : string.
Variable session : bool.

Hypothesis mode_fixed : forall w, is_session_based w = session.
Hypothesis locale_supported : locale = "SV" \/ locale = "FI".
Hypothesis authenticate_succeeds : forall w, snd (authenticate w) = Ret tt.
Hypothesis refresh_succeeds : forall w, snd (refresh_access_token w) = Ret tt.
Hypothesis always_401 :
  forall url hdrs cookies w,
    exists r, snd (client_get url hdrs cookies w) = Ret r /\ status_code r = 401.

Lemma gate_returns (proactive : bool) (s : St World) :
  snd (_ensure_valid_token proactive s) = Ret tt.
Proof.
  unfold _ensure_valid_token, bind, read, try_except, call, ret.
  destruct (if proactive && needs_renewal (fst s) then true
            else if is_token_expired (fst s) then true else false); [|reflexivity].
  cbn [fst snd].
  destruct (has_real_refresh_token (fst s)).
  - destruct (refresh_access_token (fst s)) as [w1 [[]|e]]; [reflexivity|].
    cbn [fst snd].
    pose proof (authenticate_succeeds w1) as Ha.
    destruct (authenticate w1) as [w2 r]; cbn [fst snd] in *. exact Ha.
  - pose proof (authenticate_succeeds (fst s)) as Ha.
    destruct (authenticate (fst s)) as [w1 r]; cbn [fst snd] in *. exact Ha.
Qed.

Lemma request_headers_supported (url : string) (w : World) :
  exists hdrs, request_headers locale url w = Ret hdrs.
Proof.
  unfold request_headers.
  destruct locale_supported as [-> | ->]; cbn [get_fortum_base_url String.eqb
    Ascii.eqb Bool.eqb obind];
    destruct (_ && _); eexists; reflexivity.
Qed.

(** Each attempt makes its request and ends in the retry signal. *)
Lemma attempt_unauthorized (url : string) (s : St World) :
  snd (attempt locale url s) = Raise (mk_exn APIError TOKEN_EXPIRED_RETRY_MSG)
  /\ io_trace (snd (fst (attempt locale url s))) = (io_trace (snd s) ++ [None])%list.
Proof.
  split.
  2:{ destruct (attempt_io locale url s) as [Hio | (_ & e & He & Hne)]; [exact Hio|].
      exfalso. revert He. unfold attempt, bind, read. cbn [fst snd].
      destruct (request_headers_supported url (fst s)) as [hdrs ->].
      unfold call. cbn [fst snd].
      destruct (always_401 url hdrs (request_cookies (fst s)) (fst s)) as (r & Hr & H401).
      destruct (client_get url hdrs (request_cookies (fst s)) (fst s)) as [w1 o];
        cbn [fst snd] in *. subst o.
      unfold _handle_response, bind. rewrite H401. cbn [Z.eqb Pos.eqb].
      unfold _handle_unauthorized_response, try_except, bind, read, call, raise_msg, raise.
      cbn [fst snd].
      pose proof (refresh_succeeds w1) as Hrf.
      destruct (refresh_access_token w1) as [w2 o]; cbn [fst snd] in *. subst o.
      cbn. intro Heq. injection Heq as <-. discriminate. }
  unfold attempt, bind, read. cbn [fst snd].
  destruct (request_headers_supported url (fst s)) as [hdrs ->].
  unfold call. cbn [fst snd].
  destruct (always_401 url hdrs (request_cookies (fst s)) (fst s)) as (r & Hr & H401).
  destruct (client_get url hdrs (request_cookies (fst s)) (fst s)) as [w1 o];
    cbn [fst snd] in *. subst o.
  unfold _handle_response, bind. rewrite H401. cbn [Z.eqb Pos.eqb].
  unfold _handle_unauthorized_response, try_except, bind, read, call, raise_msg, raise.
  cbn [fst snd].
  pose proof (refresh_succeeds w1) as Hrf.
  destruct (refresh_access_token w1) as [w2 o]; cbn [fst snd] in *. subst o.
  reflexivity.
Qed.

(** From attempt [retry_count] on, the request uses every retry the mode
    allows, and what leaves [_get] in the end is the retry signal
    itself. *)
Lemma unauthorized_from (url : string) :
  forall (k : nat) (retry_count : Z) (s : St World),
    0 <= retry_count ->
    Z.to_nat ((if session then 4 else 1) - retry_count) = k ->
    retry_count <= (if session then 4 else 1) ->
    snd (_get locale url retry_count s)
    = Raise (mk_exn APIError TOKEN_EXPIRED_RETRY_MSG)
    /\ io_trace (snd (fst (_get locale url retry_count s)))
       = (io_trace (snd s) ++ retry_plan session retry_count k)%list.
Proof.
  induction k as [|k IH]; intros retry_count s Hpos Hk Hle; rewrite _get_eq;
    rewrite mode_fixed.
  all: replace (retry_count >=? (if session then 5 else 2)) with false
    by (symmetry; rewrite Z.geb_leb; apply Z.leb_gt; destruct session; lia).
  all: pose proof (gate_returns true s) as Hgate;
    pose proof (gate_io true s) as Hgio;
    destruct (_ensure_valid_token true s) as [s1 o]; cbn [fst snd] in *; subst o.
  all: destruct (attempt_unauthorized url s1) as [Hres Hio];
    destruct (attempt locale url s1) as [s2 o]; cbn [fst snd] in *; subst o.
  all: cbn [isinstance_APIError exn_class_of]; unfold retries; rewrite mode_fixed;
    cbn [exn_str String.eqb]; rewrite String.eqb_refl; cbn [andb].
  - replace (retry_count <? (if session then 4 else 1)) with false
      by (symmetry; apply Z.ltb_ge; destruct session; lia).
    cbn [fst snd retry_plan]. split; [reflexivity|]. now rewrite Hio, Hgio.
  - replace (retry_count <? (if session then 4 else 1)) with true
      by (symmetry; apply Z.ltb_lt; destruct session; lia).
    cbn [retry_plan].
    destruct (retry_delay_returns session retry_count) as [delay ->];
      [destruct session; lia|].
    destruct (IH (retry_count + 1) (after_sleep delay s2)) as [Hr Ht];
      [lia | destruct session; lia | destruct session; lia |].
    split; [exact Hr|].
    rewrite Ht, after_sleep_io, Hio, Hgio.
    now rewrite <- !app_assoc.
Qed.

(** A logical request whose attempts all return 401 makes as many
    attempts as the mode allows, with the delays of the mode between
    them, and fails with the retry signal. *)
Lemma always_unauthorized (url : string) (s : St World) :
  snd (_get locale url 0 s) = Raise (mk_exn APIError TOKEN_EXPIRED_RETRY_MSG)
  /\ io_trace (snd (fst (_get locale url 0 s)))
     = (io_trace (snd s) ++ retry_plan session 0 (if session then 4 else 1))%list.
Proof.
  destruct (unauthorized_from url (if session then 4%nat else 1%nat) 0 s) as [Hr Ht];
    try (destruct session; (lia || reflexivity)).
  now split.
Qed.

(** ... so the number of its attempts is the ceiling of the mode. *)
Lemma always_unauthorized_attempts (url : string) (s : St World) :
  count_gets (snd (fst (_get locale url 0 s)))
  = (count_gets (snd s) + (if session then 5 else 2))%nat.
Proof.
  rewrite !count_gets_io.
  destruct (always_unauthorized url s) as [_ ->].
  rewrite filter_app, length_app. now destruct session.
Qed.

End AlwaysUnauthorized.

(** The assumptions of [always_unauthorized] hold in the world whose
    server answers 401 to everything. *)
Example always_unauthorized_steady :
  let out := @_get unit (Sim.steady Sim.session_mode Sim.unauthorized) Sim.externals
               "FI" "https://www.fortum.com/fi/sahkoa/api/auth/session" 0 (tt, []) in
  snd out = raise_ APIError TOKEN_EXPIRED_RETRY_MSG
  /\ count_gets (snd (fst out)) = 5%nat.
Proof.
  cbv zeta. split.
  - apply (@always_unauthorized unit (Sim.steady Sim.session_mode Sim.unauthorized)
             Sim.externals "FI" true); try reflexivity.
    + now right.
    + intros url hdrs cookies w. eexists. split; reflexivity.
  - apply (@always_unauthorized_attempts unit
             (Sim.steady Sim.session_mode Sim.unauthorized) Sim.externals "FI" true);
      try reflexivity.
    + now right.
    + intros url hdrs cookies w. eexists. split; reflexivity.
Qed.

(* ================================================================== *)
(** ** The retry ceiling and the backoff delays *)

(** C1 fails on the code at a request whose every attempt returns 401 (the
    refresh succeeds, the token needs no renewal).  The attempts are 5 in
    session-cookie-mode and 2 in credential-token-mode, but what comes out
    is the internal retry signal "Token expired - retry required" and not
    "Maximum retry attempts (..) exceeded for <url>": the dispatcher stops
    retrying one attempt before the guard of [_get] would fire, so only a
    call that starts at the ceiling reaches the guard. *)
Theorem exhausted_retries_leak_signal :
  let url := "https://www.fortum.com/se/el/api/auth/session" in
  let world := Sim.quiet [] Sim.unauthorized [] in
  let session := Sim.run (Sim.get Sim.session_mode "SV" url 0) world in
  let credential := Sim.run (Sim.get Sim.credential_mode "SV" url 0) world in
  count_gets (snd (fst session)) = 5%nat
  /\ count_gets (snd (fst credential)) = 2%nat
  /\ snd session = raise_ APIError "Token expired - retry required"
  /\ snd credential = raise_ APIError "Token expired - retry required"
  /\ snd session <> raise_ APIError ("Maximum retry attempts (5) exceeded for " ++ url)
  /\ snd credential <> raise_ APIError ("Maximum retry attempts (2) exceeded for " ++ url)
  /\ Sim.run (Sim.get Sim.session_mode "SV" url 5) world
     = ((world, []),
        raise_ APIError ("Maximum retry attempts (5) exceeded for " ++ url))
  /\ Sim.run (Sim.get Sim.credential_mode "SV" url 2) world
     = ((world, []),
        raise_ APIError ("Maximum retry attempts (2) exceeded for " ++ url)).
Proof.
  cbv zeta. vm_compute. repeat split; discriminate.
Qed.

(** C4, as the code has it.  In a world that stays in one mode, the
    requests and delays of one logical request are an initial part of:
    attempt, 5.0 s, attempt, 10.0 s, attempt, 15.0 s, attempt, 20.0 s,
    attempt in session-cookie-mode, and attempt, 0.1 s, attempt in
    credential-token-mode.  The delay before attempt [n + 1] is therefore
    [5.0 + 5.0 * n] resp. [0.1 * 2 ** n], and in credential-token-mode only
    [n = 0] occurs. *)
Theorem backoff_schedule {World : Type} `{Collaborators World} `{Externals}
    (locale : string) (session : bool) (url : string) (s : St World) :
  (forall w, is_session_based w = session) ->
  (exists n,
     io_trace (snd (fst (_get locale url 0 s)))
     = (io_trace (snd s)
        ++ firstn n
             (if session
              then [None; Some 5.0%float; None; Some 10.0%float; None;
                    Some 15.0%float; None; Some 20.0%float; None]
              else [None; Some 0.1%float; None]))%list)
  /\ retry_plan session 0 (if session then 4 else 1)
     = (if session
        then [None; Some (5.0 + 0 * 5.0)%float; None; Some (5.0 + 1 * 5.0)%float;
              None; Some (5.0 + 2 * 5.0)%float; None; Some (5.0 + 3 * 5.0)%float;
              None]
        else [None; Some (0.1 * 1)%float; None]).
Proof.
  intro Hmode. split.
  - destruct (get_follows_plan locale session url Hmode
                (if session then 4%nat else 1%nat) 0 s) as [n Hn];
      [now destruct session|].
    exists n. rewrite Hn. now destruct session.
  - now destruct session.
Qed.

(** [backoff_schedule] on a session-cookie-mode request that is answered
    401 twice and then 200. *)
Lemma backoff_schedule_witness :
  exists n,
    io_trace
      (snd (fst (Sim.get Sim.session_mode "SV" "https://www.fortum.com/se/el/api/auth/session" 0
                   (Sim.quiet [Sim.unauthorized; Sim.unauthorized]
                      (Sim.response 200 "{}" [] (Ret (JObj []))) [], []))))
    = firstn n [None; Some 5.0%float; None; Some 10.0%float; None;
                Some 15.0%float; None; Some 20.0%float; None].
Proof.
  exact (proj1 (@backoff_schedule Sim.world (Sim.collaborators Sim.session_mode)
                  Sim.externals "SV" true
                  "https://www.fortum.com/se/el/api/auth/session"
                  (Sim.quiet [Sim.unauthorized; Sim.unauthorized]
                     (Sim.response 200 "{}" [] (Ret (JObj []))) [], [])
                  (fun _ => eq_refl))).
Defined.

(** C4 as stated fails for credential-token-mode: a request that meets an
    expired token at every attempt sleeps 0.1 s once and is never retried a
    second time, so no delay of 0.2 s occurs. *)
Lemma credential_backoff_counterexample :
  let out := Sim.run (Sim.get Sim.credential_mode "SV"
                        "https://www.fortum.com/se/el/api/auth/session" 0)
               (Sim.quiet [] Sim.unauthorized []) in
  sleeps (snd (fst out)) = [0.1%float]
  /\ sleeps (snd (fst out)) <> [0.1%float; 0.2%float]
  /\ ~ In 0.2%float (sleeps (snd (fst out)))
  /\ count_gets (snd (fst out)) = 2%nat.
Proof.
  cbv zeta. vm_compute. repeat split; try discriminate.
  intros [Heq | []].
  assert (Hb : PrimFloat.eqb 0.1%float 0.2%float = true) by (now rewrite Heq).
  vm_compute in Hb. discriminate.
Qed.

(* ================================================================== *)
(** ** Redirects *)

Section Redirects.

Context {World : Type} `{Collaborators World} `{Externals}.

Variable locale : string.

(** What [_get] does when attempt [retry_count] is answered 307.  The
    Location is what [headers.get] gives: the values of the Location
    headers joined.  If it contains both "sign-out" and "TokenExpired", the
    handler raises the retry signal and calls nothing; below the retry
    limit of the mode (4 in session-cookie-mode, 1 in
    credential-token-mode) the call then continues as the backoff sleep
    followed by [_get] at attempt [retry_count + 1], and at the limit the
    signal leaves [_get].  Any other Location ends the call at once with
    "Unexpected redirect to: <Location>", after that one request and no
    sleep. *)
Lemma redirect_dispatch (url : string) (retry_count : Z) (s s1 : St World)
    (hdrs : list (string * string)) (w2 : World) (r : Response) :
  retry_count < (if is_session_based (fst s) then 5 else 2) ->
  _ensure_valid_token true s = (s1, Ret tt) ->
  request_headers locale url (fst s1) = Ret hdrs ->
  client_get url hdrs (request_cookies (fst s1)) (fst s1) = (w2, Ret r) ->
  status_code r = 307 ->
  let location := headers_get (headers r) "Location" "" in
  let s2 := (w2, (snd s1 ++ [EvGet url hdrs (request_cookies (fst s1))])%list) in
  _handle_response r s2
  = (s2, if PyStr.contains "sign-out" location && PyStr.contains "TokenExpired" location
         then raise_ APIError TOKEN_EXPIRED_RETRY_MSG
         else raise_ APIError ("Unexpected redirect to: " ++ location))
  /\ _get locale url retry_count s
     = if PyStr.contains "sign-out" location && PyStr.contains "TokenExpired" location
       then
         if retry_count <? (if is_session_based w2 then 4 else 1)
         then
           match retry_delay (is_session_based w2) retry_count with
           | Ret delay => _get locale url (retry_count + 1) (after_sleep delay s2)
           | Raise e => (s2, Raise e)
           end
         else (s2, raise_ APIError TOKEN_EXPIRED_RETRY_MSG)
       else (s2, raise_ APIError ("Unexpected redirect to: " ++ location)).
Proof.
  intros Hguard Hgate Hhdrs Hget H307 location s2.
  assert (Hhandled : _handle_response r s2
            = (s2, if PyStr.contains "sign-out" location
                      && PyStr.contains "TokenExpired" location
                   then raise_ APIError TOKEN_EXPIRED_RETRY_MSG
                   else raise_ APIError ("Unexpected redirect to: " ++ location))).
  { unfold _handle_response, bind, pure. rewrite H307. cbn [Z.eqb Pos.eqb].
    unfold _handle_redirect_response. fold location.
    now destruct (PyStr.contains "sign-out" location
                  && PyStr.contains "TokenExpired" location). }
  split; [exact Hhandled|].
  rewrite _get_eq.
  replace (retry_count >=? (if is_session_based (fst s) then 5 else 2)) with false
    by (symmetry; rewrite Z.geb_leb; apply Z.leb_gt; lia).
  rewrite Hgate.
  assert (Hatt : attempt locale url s1 = _handle_response r s2).
  { unfold attempt, bind, read, call. cbn [fst snd]. now rewrite Hhdrs, Hget. }
  rewrite Hatt, Hhandled.
  destruct (PyStr.contains "sign-out" location && PyStr.contains "TokenExpired" location).
  - cbn [raise_ isinstance_APIError exn_class_of]. unfold retries.
    cbn [exn_str fst]. rewrite String.eqb_refl. cbn [andb].
    now destruct (retry_count <? _).
  - cbn [raise_ isinstance_APIError exn_class_of]. unfold retries.
    cbn [exn_str]. unfold TOKEN_EXPIRED_RETRY_MSG. reflexivity.
Qed.

End Redirects.

(** [redirect_dispatch] on the first attempt of a credential-token-mode
    request that is redirected to the sign-out page. *)
Lemma redirect_dispatch_example :
  let url := "https://www.fortum.com/se/el/api/auth/session" in
  let target := "https://www.fortum.com/se/el/sign-out?reason=TokenExpired" in
  let world := Sim.quiet [Sim.redirect target] Sim.unauthorized [] in
  let hdrs := [("Accept", "application/json");
               ("User-Agent",
                "Mozilla/5.0 (X11; Linux x86_64; rv:138.0) Gecko/20100101 Firefox/138.0");
               ("Content-Type", "application/json");
               ("Referer", "https://www.fortum.com/se/el/inloggad/el")] in
  Sim.get Sim.credential_mode "SV" url 0 (world, [])
  = Sim.get Sim.credential_mode "SV" url 1
      (Sim.quiet [] Sim.unauthorized [],
       [EvGet url hdrs []; EvSleep 0.1%float]).
Proof.
  cbv zeta.
  exact (proj2 (@redirect_dispatch Sim.world (Sim.collaborators Sim.credential_mode)
                  Sim.externals "SV"
                  "https://www.fortum.com/se/el/api/auth/session" 0
                  (Sim.quiet [Sim.redirect
                                "https://www.fortum.com/se/el/sign-out?reason=TokenExpired"]
                     Sim.unauthorized [], [])
                  _ _ _ _
                  ltac:(cbn; lia) eq_refl eq_refl eq_refl eq_refl)).
Qed.

(** A response with two Location headers is classified on their values
    joined with ", ". *)
Lemma redirect_location_joined :
  let r := mk_response 307 ""
             [("location", "https://www.fortum.com/se/el/sign-out");
              ("Location", "/?reason=TokenExpired")] Sim.not_json in
  headers_get (headers r) "Location" ""
  = "https://www.fortum.com/se/el/sign-out, /?reason=TokenExpired"
  /\ _handle_redirect_response r = raise_ APIError TOKEN_EXPIRED_RETRY_MSG.
Proof. cbv zeta. split; reflexivity. Qed.

(** C6 fails on the code at a 307 to the sign-out page met with a token
    that the gate finds valid: the request is retried, but the retry cycle
    makes no attempt to fetch a token.  In session-cookie-mode the server
    that redirects once gets the same request again after 5 s, with neither
    [refresh_access_token] nor [authenticate] called in between, where a
    401 makes the client refresh the token before it retries; the server
    that redirects every request gets five identical requests (two in
    credential-token-mode), no call to the authentication collaborator is
    ever made, and the retry signal leaves [_get].  A 307 to any other
    Location fails at once, as claimed. *)
Theorem redirect_retry_fetches_no_token :
  let url := "https://www.fortum.com/se/el/api/auth/session" in
  let target := "https://www.fortum.com/se/el/sign-out?reason=TokenExpired" in
  let hdrs := [("Accept", "application/json");
               ("User-Agent",
                "Mozilla/5.0 (X11; Linux x86_64; rv:138.0) Gecko/20100101 Firefox/138.0");
               ("Content-Type", "application/json");
               ("Referer", "https://www.fortum.com/se/el/inloggad/el")] in
  let ok := Sim.response 200 "{}" [] (Ret (JObj [])) in
  let once := Sim.run (Sim.get Sim.session_mode "SV" url 0)
                (Sim.quiet [Sim.redirect target] ok []) in
  let unauthorized_once := Sim.run (Sim.get Sim.session_mode "SV" url 0)
                             (Sim.quiet [Sim.unauthorized] ok []) in
  let always := Sim.run (Sim.get Sim.session_mode "SV" url 0)
                  (Sim.quiet [] (Sim.redirect target) []) in
  let credential := Sim.run (Sim.get Sim.credential_mode "SV" url 0)
                      (Sim.quiet [] (Sim.redirect target) []) in
  let elsewhere := Sim.run (Sim.get Sim.session_mode "SV" url 0)
                     (Sim.quiet [] (Sim.redirect "https://www.fortum.com/se/el/") []) in
  snd (fst once) = [EvGet url hdrs []; EvSleep 5.0%float; EvGet url hdrs []]
  /\ auth_calls (snd (fst once)) = []
  /\ snd (fst unauthorized_once)
     = [EvGet url hdrs []; EvRefresh; EvSleep 5.0%float; EvGet url hdrs []]
  /\ count_gets (snd (fst always)) = 5%nat
  /\ auth_calls (snd (fst always)) = []
  /\ snd always = raise_ APIError "Token expired - retry required"
  /\ count_gets (snd (fst credential)) = 2%nat
  /\ auth_calls (snd (fst credential)) = []
  /\ snd credential = raise_ APIError "Token expired - retry required"
  /\ snd (fst elsewhere) = [EvGet url hdrs []]
  /\ snd elsewhere
     = raise_ APIError "Unexpected redirect to: https://www.fortum.com/se/el/".
Proof.
  cbv zeta. vm_compute. repeat split.
Qed.

(* ================================================================== *)
(** ** The token gate *)

Section TokenGate.

Context {World : Type} `{Collaborators World}.

(** C9.  When the gate finds that renewal is needed: with a real refresh
    token (present, not empty, not "session_based") it calls the refresh
    operation, and if that raises, whatever it raises, it then calls
    [authenticate]; with no real refresh token it calls [authenticate] and
    nothing else, so never the refresh operation. *)
Theorem gate_renewal (proactive : bool) (s : St World) :
  (proactive && needs_renewal (fst s)) || is_token_expired (fst s) = true ->
  (forall t, refresh_token (fst s) = Some t -> t <> "" -> t <> "session_based" ->
     let refreshed := refresh_access_token (fst s) in
     (snd refreshed = Ret tt ->
        _ensure_valid_token proactive s
        = ((fst refreshed, (snd s ++ [EvRefresh])%list), Ret tt))
     /\ (forall e, snd refreshed = Raise e ->
           _ensure_valid_token proactive s
           = ((fst (authenticate (fst refreshed)),
               (snd s ++ [EvRefresh; EvAuthenticate])%list),
              snd (authenticate (fst refreshed)))))
  /\ (refresh_token (fst s) = None \/ refresh_token (fst s) = Some ""
      \/ refresh_token (fst s) = Some "session_based" ->
      _ensure_valid_token proactive s
      = ((fst (authenticate (fst s)), (snd s ++ [EvAuthenticate])%list),
         snd (authenticate (fst s)))).
Proof.
  intro Hneeded.
  assert (Hdecision : (if proactive && needs_renewal (fst s) then true
                       else if is_token_expired (fst s) then true else false) = true).
  { destruct (proactive && needs_renewal (fst s)); [reflexivity|].
    cbn [orb] in Hneeded. now rewrite Hneeded. }
  unfold _ensure_valid_token, bind, read, ret. cbn [fst snd]. rewrite Hdecision.
  split.
  - intros t Htok Hne Hns.
    assert (Hreal : has_real_refresh_token (fst s) = true).
    { unfold has_real_refresh_token. rewrite Htok. cbn [PyStr.truthy].
      apply String.eqb_neq in Hne, Hns. now rewrite Hne, Hns. }
    rewrite Hreal. unfold try_except, call. cbn [fst snd].
    destruct (refresh_access_token (fst s)) as [w1 o]; cbn [fst snd].
    split.
    + now intros ->.
    + intros e ->. destruct (authenticate w1) as [w2 o2]; cbn [fst snd].
      now rewrite <- app_assoc.
  - intros Hnone.
    assert (Hreal : has_real_refresh_token (fst s) = false).
    { unfold has_real_refresh_token.
      destruct Hnone as [-> | [-> | ->]]; reflexivity. }
    rewrite Hreal. unfold call.
    now destruct (authenticate (fst s)) as [w1 o].
Qed.

End TokenGate.

(** [gate_renewal] on an expired token: in credential-token-mode with a
    refresh that fails the gate falls back to [authenticate]; in
    session-cookie-mode it calls [authenticate] only. *)
Lemma gate_renewal_witness :
  let world := Sim.expired (raise_ (OtherException "OAuth2Error") "invalid_grant") in
  Sim.ensure_valid_token Sim.credential_mode true (world, [])
  = ((world, [EvRefresh; EvAuthenticate]), Ret tt)
  /\ Sim.ensure_valid_token Sim.session_mode true (world, [])
     = ((world, [EvAuthenticate]), Ret tt).
Proof.
  cbv zeta. split.
  - refine (proj2 (proj1 (@gate_renewal Sim.world (Sim.collaborators Sim.credential_mode)
                            true
                            (Sim.expired (raise_ (OtherException "OAuth2Error")
                                            "invalid_grant"), [])
                            eq_refl)
                     "real-refresh-token" eq_refl _ _) _ eq_refl);
      discriminate.
  - exact (proj2 (@gate_renewal Sim.world (Sim.collaborators Sim.session_mode)
                    true
                    (Sim.expired (raise_ (OtherException "OAuth2Error")
                                    "invalid_grant"), [])
                    eq_refl)
             (or_intror (or_intror eq_refl))).
Defined.

(* ================================================================== *)
(** ** The date-range ladder *)

Section Executor.

Context {World : Type} `{Collaborators World} `{Externals}.

Variable locale : string.

Lemma last_days_eq (n : Z) (s : St World) :
  last_days n s
  = let t := snd (now (fst s)) in
    let w1 := fst (now (fst s)) in
    match PyDate.sub_days t n with
    | Ret f => ((fst (now w1), snd s), Ret (f, snd (now w1)))
    | Raise e => ((w1, snd s), Raise e)
    end.
Proof.
  unfold last_days, bind, datetime_now, pure, ret. cbn [fst snd].
  destruct (now (fst s)) as [w1 t]. cbn [fst snd].
  destruct (PyDate.sub_days t n) as [f|e]; [|reflexivity].
  now destruct (now w1) as [w2 t2].
Qed.

(** What [get_time_series_data] does after a failed first request. *)
Lemma ladder_eq (nos : list string) (f t : datetime) (res : string) (s : St World) :
  get_time_series_data locale nos (Some f) (Some t) res s
  = match _fetch_time_series_data locale nos f t res s with
    | (s1, Ret v) => (s1, Ret v)
    | (s1, Raise e1) =>
        if ladder_trigger e1 then
          match last_days 30 s1 with
          | (s2, Raise e) => (s2, Raise e)
          | (s2, Ret (f30, t30)) =>
              match _fetch_time_series_data locale nos f30 t30 res s2 with
              | (s3, Ret v) => (s3, Ret v)
              | (s3, Raise e2) =>
                  if isinstance_APIError e2 then
                    match last_days 7 s3 with
                    | (s4, Raise e) => (s4, Raise e)
                    | (s4, Ret (f7, t7)) =>
                        _fetch_time_series_data locale nos f7 t7 res s4
                    end
                  else (s3, Raise e2)
              end
          end
        else (s1, Raise e1)
    end.
Proof.
  unfold get_time_series_data. cbn [bind ret]. unfold try_except at 1.
  destruct (_fetch_time_series_data locale nos f t res s) as [s1 [v|e1]];
    [reflexivity|].
  unfold ladder_trigger.
  destruct (isinstance_APIError e1); [|reflexivity]. cbn [andb].
  destruct (_ || _); [|reflexivity].
  rewrite last_days_eq. unfold bind at 1. unfold datetime_now at 1.
  destruct (now (fst s1)) as [w1 t1]. cbn [fst snd].
  unfold bind at 1. unfold pure at 1.
  destruct (PyDate.sub_days t1 30) as [f30|e]; [|reflexivity].
  unfold bind at 1. unfold datetime_now at 1. cbn [fst snd].
  destruct (now w1) as [w2 t30]. cbn [fst snd].
  unfold try_except at 1.
  destruct (_fetch_time_series_data locale nos f30 t30 res (w2, snd s1))
    as [s3 [v|e2]]; [reflexivity|].
  destruct (isinstance_APIError e2); [|reflexivity].
  rewrite last_days_eq. unfold bind at 1. unfold datetime_now at 1.
  destruct (now (fst s3)) as [w3 t3]. cbn [fst snd].
  unfold bind at 1. unfold pure at 1.
  destruct (PyDate.sub_days t3 7) as [f7|e]; [|reflexivity].
  unfold bind at 1. unfold datetime_now at 1. cbn [fst snd].
  now destruct (now w3) as [w4 t7].
Qed.

(** C3, as the code has it.  A first request that fails with an [APIError]
    whose text contains "Server error" or "reducing date range" (the two
    errors of a decoded 500 envelope do, the generic 500 error and the
    authentication failures do not) is followed by a second request over
    the last 30 days; if that fails with an [APIError], by a third over the
    last 7 days, whose result or failure is the result of the call.  A
    first failure that does not pass the test, and a second failure that is
    no [APIError], leave the call as they are. *)
Theorem degradation_ladder (nos : list string) (f t : datetime) (res : string)
    (s : St World) :
  let first := _fetch_time_series_data locale nos f t res s in
  let call := get_time_series_data locale nos (Some f) (Some t) res s in
  (forall v, snd first = Ret v -> call = first)
  /\ (forall e1, snd first = Raise e1 -> ladder_trigger e1 = false -> call = first)
  /\ (forall e1 s2 f30 t30,
        snd first = Raise e1 -> ladder_trigger e1 = true ->
        last_days 30 (fst first) = (s2, Ret (f30, t30)) ->
        let second := _fetch_time_series_data locale nos f30 t30 res s2 in
        (forall v, snd second = Ret v -> call = second)
        /\ (forall e2, snd second = Raise e2 -> isinstance_APIError e2 = false ->
              call = second)
        /\ (forall e2 s4 f7 t7,
              snd second = Raise e2 -> isinstance_APIError e2 = true ->
              last_days 7 (fst second) = (s4, Ret (f7, t7)) ->
              call = _fetch_time_series_data locale nos f7 t7 res s4))
  /\ (forall n s0 f0,
        PyDate.sub_days (snd (now (fst s0))) n = Ret f0 ->
        last_days n s0
        = ((fst (now (fst (now (fst s0)))), snd s0),
           Ret (f0, snd (now (fst (now (fst s0)))))))
  /\ ladder_trigger
       (mk_exn APIError "Server error - try reducing date range or changing resolution")
     = true
  /\ (forall msg, ladder_trigger (mk_exn APIError ("Server error: " ++ msg)) = true)
  /\ ladder_trigger (mk_exn APIError "Server internal error - try again later") = false
  /\ ladder_trigger (mk_exn APIError "Authentication failed - re-authentication required")
     = false
  /\ ladder_trigger (mk_exn APIError "Access forbidden - authentication may be required")
     = false
  /\ ladder_trigger (mk_exn APIError TOKEN_EXPIRED_RETRY_MSG) = false.
Proof.
  intros first call. subst first call.
  repeat match goal with |- _ /\ _ => split end; try reflexivity.
  - intros v Hv. rewrite ladder_eq.
    destruct (_fetch_time_series_data locale nos f t res s) as [s1 o];
      cbn [snd] in Hv. now subst o.
  - intros e1 He1 Hno. rewrite ladder_eq.
    destruct (_fetch_time_series_data locale nos f t res s) as [s1 o];
      cbn [snd] in He1. subst o. now rewrite Hno.
  - intros e1 s2 f30 t30 He1 Htrig H30 second. subst second.
    rewrite ladder_eq.
    destruct (_fetch_time_series_data locale nos f t res s) as [s1 o];
      cbn [fst snd] in *. subst o. rewrite Htrig, H30.
    destruct (_fetch_time_series_data locale nos f30 t30 res s2) as [s3 o];
      cbn [fst snd].
    repeat split.
    + now intros v ->.
    + intros e2 -> Hno. now rewrite Hno.
    + intros e2 s4 f7 t7 -> Hapi H7. now rewrite Hapi, H7.
  - intros n s0 f0 Hf0. rewrite last_days_eq. cbv zeta. now rewrite Hf0.
Qed.

(** C5, as the code has it.  With no [from_date] the range starts 90 days
    before the first day of the current month, that is 89 days plus the
    day of the month before the reading of the clock, at the same time of
    day; with no [to_date] it ends at the (next) reading of the clock. *)
Theorem default_range (nos : list string) (res : string) (s : St World) :
  let t1 := snd (now (fst s)) in
  let w1 := fst (now (fst s)) in
  let t2 := snd (now w1) in
  let w2 := fst (now w1) in
  PyDate.sub_days (PyDate.replace_day t1 1) 90 = PyDate.sub_days t1 (89 + day t1)
  /\ (forall f, PyDate.sub_days (PyDate.replace_day t1 1) 90 = Ret f ->
        get_time_series_data locale nos None None res s
        = get_time_series_data locale nos (Some f) (Some t2) res (w2, snd s))
  /\ (forall f to_date,
        PyDate.sub_days (PyDate.replace_day t1 1) 90 = Ret f ->
        get_time_series_data locale nos None (Some to_date) res s
        = get_time_series_data locale nos (Some f) (Some to_date) res (w1, snd s))
  /\ (forall f,
        get_time_series_data locale nos (Some f) None res s
        = get_time_series_data locale nos (Some f) (Some t1) res (w1, snd s)).
Proof.
  intros t1 w1 t2 w2. split; [|split; [|split]].
  - unfold PyDate.sub_days, PyDate.toordinal, PyDate.replace_day, PyDate.ymd2ord.
    cbn [year month day hour minute second microsecond].
    now replace (PyDate.days_before_year (year t1)
                 + PyDate.days_before_month (year t1) (month t1) + 1 - 90)
      with (PyDate.days_before_year (year t1)
            + PyDate.days_before_month (year t1) (month t1) + day t1
            - (89 + day t1)) by lia.
  - intros f Hf. subst t1 w1 t2 w2.
    unfold get_time_series_data. unfold bind at 1. unfold bind at 1.
    unfold datetime_now at 1. destruct (now (fst s)) as [wa ta]. cbn [fst snd] in *.
    unfold pure at 1. rewrite Hf.
    unfold bind at 1. unfold datetime_now at 1. cbn [fst snd].
    destruct (now wa) as [wb tb]. reflexivity.
  - intros f to_date Hf. subst t1 w1.
    unfold get_time_series_data. unfold bind at 1. unfold bind at 1.
    unfold datetime_now at 1. destruct (now (fst s)) as [wa ta]. cbn [fst snd] in *.
    unfold pure at 1. rewrite Hf. reflexivity.
  - intros f. subst t1 w1.
    unfold get_time_series_data. cbn [bind ret]. unfold bind at 1.
    unfold datetime_now at 1. destruct (now (fst s)) as [wa ta]. reflexivity.
Qed.

End Executor.

(** [degradation_ladder] on a request that is answered with the
    INTERNAL_SERVER_ERROR envelope twice and then with data: the three
    requests cover the asked range, the last 30 days and the last 7 days,
    and the data of the third is returned. *)
Lemma degradation_ladder_witness :
  let world :=
    Sim.quiet [Sim.server_error "INTERNAL_SERVER_ERROR";
               Sim.server_error "INTERNAL_SERVER_ERROR";
               Sim.success (JArr [JStr "series"])]
      Sim.unauthorized [] in
  let out := Sim.run (Sim.time_series Sim.session_mode "SV" ["735999"]
                        (Some (Sim.noon 2023 1 31)) (Some (Sim.noon 2023 5 15)) "MONTH")
               world in
  fetch_ranges (snd (fst out))
  = [(Sim.noon 2023 1 31, Sim.noon 2023 5 15);
     (Sim.noon 2023 4 15, Sim.noon 2023 5 15);
     (Sim.noon 2023 5 8, Sim.noon 2023 5 15)]
  /\ snd out = Ret [JStr "series"].
Proof.
  cbv zeta.
  pose proof (@degradation_ladder Sim.world (Sim.collaborators Sim.session_mode)
                Sim.externals "SV" ["735999"] (Sim.noon 2023 1 31) (Sim.noon 2023 5 15)
                "MONTH"
                (Sim.quiet [Sim.server_error "INTERNAL_SERVER_ERROR";
                            Sim.server_error "INTERNAL_SERVER_ERROR";
                            Sim.success (JArr [JStr "series"])]
                   Sim.unauthorized [], [])) as Hladder.
  cbv zeta in Hladder. destruct Hladder as (_ & _ & Hsecond & _).
  edestruct Hsecond as (_ & _ & Hthird);
    [reflexivity | reflexivity | reflexivity |].
  unfold Sim.run, Sim.time_series.
  erewrite Hthird; [| reflexivity | reflexivity | reflexivity].
  split; reflexivity.
Defined.

(** C3 as stated fails: a failure that is not a server error can enter the
    ladder.  The first request is answered 307 with a Location that is not
    the sign-out page, so it fails as an unexpected redirect; the Location
    contains "Server error", and a second request over the last 30 days is
    made. *)
Lemma ladder_entered_counterexample :
  let world :=
    Sim.quiet [Sim.redirect "https://www.fortum.com/error/Server error";
               Sim.success (JArr [JStr "series"])]
      Sim.unauthorized [] in
  let first := Sim.run (Sim.fetch Sim.session_mode "SV" ["735999"]
                          (Sim.noon 2023 1 31) (Sim.noon 2023 5 15) "MONTH") world in
  let out := Sim.run (Sim.time_series Sim.session_mode "SV" ["735999"]
                        (Some (Sim.noon 2023 1 31)) (Some (Sim.noon 2023 5 15)) "MONTH")
               world in
  snd first
  = raise_ APIError "Unexpected redirect to: https://www.fortum.com/error/Server error"
  /\ count_gets (snd (fst first)) = 1%nat
  /\ fetch_ranges (snd (fst out))
     = [(Sim.noon 2023 1 31, Sim.noon 2023 5 15);
        (Sim.noon 2023 4 15, Sim.noon 2023 5 15)]
  /\ count_gets (snd (fst out)) = 2%nat
  /\ snd out = Ret [JStr "series"].
Proof.
  cbv zeta. vm_compute. repeat split.
Qed.

(** [default_range] on 15 May 2023, noon. *)
Lemma default_range_witness :
  let world := Sim.quiet [] (Sim.success (JArr [])) [] in
  Sim.time_series Sim.session_mode "SV" ["735999"] None None "MONTH" (world, [])
  = Sim.time_series Sim.session_mode "SV" ["735999"]
      (Some (Sim.noon 2023 1 31)) (Some (Sim.noon 2023 5 15)) "MONTH" (world, []).
Proof.
  cbv zeta.
  pose proof (@default_range Sim.world (Sim.collaborators Sim.session_mode)
                Sim.externals "SV" ["735999"] "MONTH"
                (Sim.quiet [] (Sim.success (JArr [])) [], [])) as Hdefault.
  cbv zeta in Hdefault. destruct Hdefault as (_ & Hboth & _).
  exact (Hboth (Sim.noon 2023 1 31) eq_refl).
Defined.

(** C5 as stated fails: on 15 May 2023 the default range starts on 31
    January 2023, which is not the first day of a month; the first day of
    the month 90 days ago is 1 February 2023. *)
Lemma default_range_counterexample :
  let today := Sim.noon 2023 5 15 in
  let out := Sim.run (Sim.time_series Sim.session_mode "SV" ["735999"] None None "MONTH")
               (Sim.quiet [] (Sim.success (JArr [])) []) in
  fetch_ranges (snd (fst out)) = [(Sim.noon 2023 1 31, today)]
  /\ spec_first_day_of_month_90_days_ago today = Ret (Sim.noon 2023 2 1)
  /\ PyDate.sub_days (PyDate.replace_day today 1) 90
     <> spec_first_day_of_month_90_days_ago today
  /\ day (Sim.noon 2023 1 31) <> 1.
Proof.
  cbv zeta. vm_compute. repeat split; discriminate.
Qed.

(** With [UnexpectedStatusCodeError] an [APIError], as modelled, an
    unexpected status whose body contains "Server error" enters the ladder
    as well. *)
Example ladder_entered_by_status :
  let world :=
    Sim.quiet [Sim.response 502 "Server error" [] Sim.not_json;
               Sim.success (JArr [JStr "series"])]
      Sim.unauthorized [] in
  let out := Sim.run (Sim.time_series Sim.session_mode "SV" ["735999"]
                        (Some (Sim.noon 2023 1 31)) (Some (Sim.noon 2023 5 15)) "MONTH")
               world in
  ladder_trigger (mk_exn UnexpectedStatusCodeError "Unexpected status code 502: Server error")
  = true
  /\ List.length (fetch_ranges (snd (fst out))) = 2%nat.
Proof.
  cbv zeta. vm_compute. split; reflexivity.
Qed.

(* ================================================================== *)
(** * Further properties of the code *)

(** ** endpoints.py: the user-details URL *)

(** X1.  [get_user_details_url] raises [KeyError('OAUTH_BASE_URL')] for
    every user id: its template is a plain string, so "{OAUTH_BASE_URL}" is
    a replacement field that the call gives no value. *)
Theorem user_details_url_raises (user_id : string) :
  get_user_details_url user_id = raise_ KeyError "'OAUTH_BASE_URL'".
Proof. reflexivity. Qed.

(** ** sensors/cost.py *)

Section CostSensor.

Context `{Models}.

Variable py_sum : list float -> float.

Import MittFortumCostSensor.

Lemma cost_values_app (a b : list ConsumptionData) :
  cost_values (a ++ b) = (cost_values a ++ cost_values b)%list.
Proof.
  induction a as [|item a IH]; [reflexivity|].
  cbn [app cost_values]. destruct (cost item); [cbn [app]|]; now rewrite IH.
Qed.

Lemma cost_values_cost_data (items : list ConsumptionData) :
  cost_values (cost_data items) = cost_values items.
Proof.
  induction items as [|item items IH]; [reflexivity|].
  cbn [cost_data filter cost_values]. fold (cost_data items).
  destruct (cost item) eqn:Hc; cbn [cost_values]; rewrite ?Hc; now rewrite IH.
Qed.

Lemma cost_values_length (items : list ConsumptionData) :
  List.length (cost_values items) = List.length (cost_data items).
Proof.
  induction items as [|item items IH]; [reflexivity|].
  cbn [cost_data filter cost_values]. fold (cost_data items).
  destruct (cost item); cbn [List.length]; now rewrite IH.
Qed.

(** X2.  Given that [sum([], 0.0)] is 0.0, the state of the cost sensor is
    [None] exactly when there is no data, and on a list, empty or not, it
    is the [sum] of the costs that are not [None]: it depends on the data
    only through the sequence of those costs, items without a cost change
    nothing, and a list with no cost at all reads 0.0 like the empty
    list. *)
Theorem cost_sensor_value (items items' : list ConsumptionData)
    (data : option (list ConsumptionData)) :
  py_sum [] = 0%float ->
  (native_value py_sum data = None <-> data = None)
  /\ native_value py_sum (Some items) = Some (py_sum (cost_values items))
  /\ native_value py_sum (Some (cost_data items)) = native_value py_sum (Some items)
  /\ (cost_values items = cost_values items' ->
      native_value py_sum (Some items) = native_value py_sum (Some items'))
  /\ (cost_values items = [] -> native_value py_sum (Some items) = Some 0%float).
Proof.
  intro Hnil.
  assert (Hsum : forall l, native_value py_sum (Some l) = Some (py_sum (cost_values l))).
  { intros [|x l]; [cbn; now rewrite Hnil | reflexivity]. }
  split; [|split; [|split; [|split]]].
  - split; [|now intros ->].
    destruct data as [[|x l]|]; [discriminate | discriminate | reflexivity].
  - apply Hsum.
  - now rewrite !Hsum, cost_values_cost_data.
  - intro Heq. now rewrite !Hsum, Heq.
  - intro Hnone. now rewrite Hsum, Hnone, Hnil.
Qed.

(** X3.  The extra attributes are [None] when the data is [None] or empty,
    whatever the locale.  On a list that ends with [item] they are the
    number of items with a cost (the number of terms of the state's sum),
    the currency of the locale and the ISO time of [item]; on an
    unsupported locale they raise [ValueError], although the state of the
    sensor is still computed. *)
Theorem cost_sensor_attributes (locale : string) (items : list ConsumptionData)
    (item : ConsumptionData) :
  extra_state_attributes locale None = Ret None
  /\ extra_state_attributes locale (Some []) = Ret None
  /\ extra_state_attributes locale (Some (items ++ [item])%list)
     = (currency <- get_cost_unit locale ;;
        Ret (Some (JObj [("total_records_with_cost",
                          JInt (Z.of_nat (List.length (cost_values (items ++ [item])%list))));
                         ("currency", JStr currency);
                         ("latest_date", JStr (isoformat (date_time item)))])))%outcome
  /\ (locale <> "SV" -> locale <> "FI" ->
      extra_state_attributes locale (Some (items ++ [item])%list)
      = raise_ ValueError ("Unsupported locale: " ++ locale)
      /\ native_unit_of_measurement locale
         = raise_ ValueError ("Unsupported locale: " ++ locale)
      /\ native_value py_sum (Some (items ++ [item])%list) <> None)
  /\ (List.length (cost_values (items ++ [item])%list) <= List.length (items ++ [item])%list)%nat.
Proof.
  assert (Hattr : extra_state_attributes locale (Some (items ++ [item])%list)
     = (currency <- get_cost_unit locale ;;
        Ret (Some (JObj [("total_records_with_cost",
                          JInt (Z.of_nat (List.length (cost_values (items ++ [item])%list))));
                         ("currency", JStr currency);
                         ("latest_date", JStr (isoformat (date_time item)))])))%outcome).
  { unfold extra_state_attributes.
    destruct (items ++ [item])%list as [|x l] eqn:Happ.
    { now destruct items. }
    rewrite <- Happ, cost_values_length, map_app. cbn [map].
    rewrite last_last. reflexivity. }
  split; [reflexivity | split; [reflexivity | split; [exact Hattr | split]]].
  - intros Hsv Hfi.
    assert (Hunit : get_cost_unit locale
                    = raise_ ValueError ("Unsupported locale: " ++ locale)).
    { unfold get_cost_unit.
      now rewrite (locale_eqb_neq _ _ Hsv), (locale_eqb_neq _ _ Hfi). }
    split; [now rewrite Hattr, Hunit | split; [exact Hunit|]].
    now destruct (items ++ [item])%list.
  - rewrite cost_values_length. apply filter_length_le.
Qed.

End CostSensor.

(** [cost_sensor_attributes] on two readings in Finland and in an
    unsupported locale. *)
Lemma cost_sensor_attributes_witness :
  let data := [(Some 1.5%float, Sim.noon 2023 5 14); (None, Sim.noon 2023 5 15)] in
  @MittFortumCostSensor.extra_state_attributes Sim.externals SimModels.models "NO"
    (Some data)
  = raise_ ValueError "Unsupported locale: NO"
  /\ @MittFortumCostSensor.native_value Sim.externals SimModels.models
       SimModels.float_sum (Some data)
     <> None.
Proof.
  cbv zeta.
  pose proof (@cost_sensor_attributes Sim.externals SimModels.models
                SimModels.float_sum "NO"
                [(Some 1.5%float, Sim.noon 2023 5 14)] (None, Sim.noon 2023 5 15))
    as (_ & _ & _ & Hno & _).
  assert (Ha : "NO" <> "SV") by discriminate.
  assert (Hb : "NO" <> "FI") by discriminate.
  destruct (Hno Ha Hb) as (Hattr & _ & Hvalue).
  split; [exact Hattr | exact Hvalue].
Defined.

(** [cost_sensor_value] on two readings of which one has a cost. *)
Lemma cost_sensor_value_witness :
  let data := [(Some 1.5%float, Sim.noon 2023 5 14); (None, Sim.noon 2023 5 15)] in
  @MittFortumCostSensor.native_value Sim.externals SimModels.models
    SimModels.float_sum (Some data)
  = Some 1.5%float.
Proof.
  cbv zeta.
  exact (proj1 (proj2
           (@cost_sensor_value Sim.externals SimModels.models SimModels.float_sum
              [(Some 1.5%float, Sim.noon 2023 5 14); (None, Sim.noon 2023 5 15)]
              [] None eq_refl))).
Defined.

(** ** The decoder on documents that are neither a list nor an object *)

(** X4.  A body that parses to [null], [false], the integer 0 or the empty
    string decodes to the empty object; a non-empty string decodes to its
    first character, which is its first byte when that is ASCII and
    otherwise the bytes that the leading byte announces, as in the text
    that starts with a-ring (bytes 195 165); any other integer and [true]
    make the decoder raise a [TypeError], which its own handler does not
    turn into a malformed-response error. *)
Theorem envelope_decoder_scalars (status : Z) (raw : string)
    (hs : list (string * string)) (n : Z) (c : ascii) (rest : string) :
  let decode := fun doc => _parse_trpc_response (mk_response status raw hs (Ret doc)) in
  decode JNull = Ret (JObj [])
  /\ decode (JBool false) = Ret (JObj [])
  /\ decode (JStr "") = Ret (JObj [])
  /\ decode (JStr (String c rest))
     = Ret (JStr (String c (PyStr.take (Nat.pred (PyStr.char_width c)) rest)))
  /\ ((nat_of_ascii c < 128)%nat ->
      decode (JStr (String c rest)) = Ret (JStr (String c "")))
  /\ decode (JStr (String "195" (String "165" rest)))
     = Ret (JStr (String "195" (String "165" "")))
  /\ match decode (JInt n) with
     | Ret v => n = 0 /\ v = JObj []
     | Raise e => n <> 0 /\ exn_class_of e = TypeError
     end
  /\ (exists e, decode (JBool true) = Raise e /\ exn_class_of e = TypeError).
Proof.
  cbv zeta. unfold _parse_trpc_response. cbn [resp_json obind otry].
  split; [reflexivity | split; [reflexivity | split; [reflexivity|]]].
  split; [reflexivity | split; [| split; [reflexivity | split]]].
  - intro Hascii. cbn [PyJson.truthy PyJson.first PyStr.chars PyStr.chars_from].
    unfold PyStr.char_width.
    replace (nat_of_ascii c <? 192)%nat with true
      by (symmetry; apply Nat.ltb_lt; lia).
    reflexivity.
  - cbn [PyJson.truthy]. destruct (n =? 0) eqn:Hn; cbn.
    + apply Z.eqb_eq in Hn. now split.
    + apply Z.eqb_neq in Hn. now split.
  - eexists. split; reflexivity.
Qed.

(* ================================================================== *)
(** ** The classification of responses and what the pipeline retries *)

(** The 500 handler ends in an exception on every response. *)
Lemma server_error_raises `{Externals} (response : Response) :
  exists e, _handle_server_error_response response = Raise e.
Proof.
  unfold _handle_server_error_response.
  match goal with |- context [otry ?b ?h] => destruct (otry b h) as [[]|e] end;
    eexists; reflexivity.
Qed.



Section Classification.

Context {World : Type} `{Collaborators World} `{Externals}.

Variable locale : string.

(** X5.  [_handle_response] returns only for a 200 with a non-empty body,
    and then it returns the response itself and calls nothing.  A 200 with
    an empty body is a malformed-response error, a 403 the "Access
    forbidden" error, and a status other than 200, 307, 401, 403 and 500 an
    unexpected-status error with the status and the body in its text. *)
Theorem response_classification (r : Response) (s : St World) :
  (forall s' r', _handle_response r s = (s', Ret r') ->
     status_code r = 200 /\ text r <> "" /\ r' = r /\ s' = s)
  /\ (status_code r = 200 ->
      _handle_response r s
      = if (text r =? "")%string
        then (s, raise_ InvalidResponseError "Empty response from API")
        else (s, Ret r))
  /\ (status_code r = 403 ->
      _handle_response r s
      = (s, raise_ APIError "Access forbidden - authentication may be required"))
  /\ (status_code r <> 200 -> status_code r <> 307 -> status_code r <> 401 ->
      status_code r <> 403 -> status_code r <> 500 ->
      _handle_response r s
      = (s, raise_ UnexpectedStatusCodeError
              ("Unexpected status code " ++ PyStr.of_Z (status_code r) ++ ": "
               ++ text r))).
Proof.
  split; [|split; [|split]].
  - intros s' r'. unfold _handle_response, bind.
    destruct (status_code r =? 307) eqn:H307;
      [unfold pure, _handle_redirect_response; destruct (_ && _); discriminate|].
    destruct (status_code r =? 401) eqn:H401.
    { unfold _handle_unauthorized_response, try_except, bind, read, call, raise_msg, raise.
      cbn [fst snd]. destruct (refresh_access_token (fst s)) as [w1 [[]|e]];
        cbn; [discriminate|].
      destruct (isinstance_APIError e); [destruct (PyStr.contains _ _)|]; discriminate. }
    destruct (status_code r =? 403) eqn:H403; [discriminate|].
    destruct (status_code r =? 500) eqn:H500;
      [unfold pure; destruct (server_error_raises r) as [e ->]; discriminate|].
    destruct (status_code r =? 200) eqn:H200; cbn [negb]; [|discriminate].
    unfold ret. destruct (text r =? "")%string eqn:Htext; [discriminate|].
    intro Heq. injection Heq as <- <-.
    apply Z.eqb_eq in H200. apply String.eqb_neq in Htext. now repeat split.
  - intro H200. unfold _handle_response, bind. rewrite H200. cbn [Z.eqb Pos.eqb negb].
    unfold ret. now destruct (text r =? "")%string.
  - intro H403. unfold _handle_response, bind. rewrite H403. reflexivity.
  - intros H200 H307 H401 H403 H500. unfold _handle_response, bind.
    apply Z.eqb_neq in H200, H307, H401, H403, H500.
    rewrite H200, H307, H401, H403, H500. reflexivity.
Qed.

(** What an attempt is once the headers are built and the server has
    answered: the classification of the answer. *)
Lemma attempt_answered (url : string) (s1 : St World) (hdrs : list (string * string))
    (w2 : World) (r : Response) :
  request_headers locale url (fst s1) = Ret hdrs ->
  client_get url hdrs (request_cookies (fst s1)) (fst s1) = (w2, Ret r) ->
  attempt locale url s1
  = _handle_response r
      (w2, (snd s1 ++ [EvGet url hdrs (request_cookies (fst s1))])%list).
Proof.
  intros Hhdrs Hget. unfold attempt, bind, read, call. cbn [fst snd].
  now rewrite Hhdrs, Hget.
Qed.

(** An [APIError] other than the retry signal ends [_get] as it is. *)
Lemma get_not_retried (url : string) (retry_count : Z) (s s1 s2 : St World) (exc : exn) :
  retry_count < (if is_session_based (fst s) then 5 else 2) ->
  _ensure_valid_token true s = (s1, Ret tt) ->
  attempt locale url s1 = (s2, Raise exc) ->
  isinstance_APIError exc = true ->
  exn_str exc <> TOKEN_EXPIRED_RETRY_MSG ->
  _get locale url retry_count s = (s2, Raise exc).
Proof.
  intros Hguard Hgate Hatt Hapi Hne. rewrite _get_eq.
  replace (retry_count >=? (if is_session_based (fst s) then 5 else 2)) with false
    by (symmetry; rewrite Z.geb_leb; apply Z.leb_gt; lia).
  rewrite Hgate, Hatt, Hapi. unfold retries.
  apply String.eqb_neq in Hne. now rewrite Hne.
Qed.

(** X6.  An answer whose status is not 307, 401 or 500 is never retried:
    [_get] ends with the classification of that one answer, after one
    request and no sleep. *)
Theorem status_not_retried (url : string) (retry_count : Z) (s s1 : St World)
    (hdrs : list (string * string)) (w2 : World) (r : Response) :
  retry_count < (if is_session_based (fst s) then 5 else 2) ->
  _ensure_valid_token true s = (s1, Ret tt) ->
  request_headers locale url (fst s1) = Ret hdrs ->
  client_get url hdrs (request_cookies (fst s1)) (fst s1) = (w2, Ret r) ->
  status_code r <> 307 -> status_code r <> 401 -> status_code r <> 500 ->
  let s2 := (w2, (snd s1 ++ [EvGet url hdrs (request_cookies (fst s1))])%list) in
  _get locale url retry_count s = _handle_response r s2
  /\ fst (_handle_response r s2) = s2.
Proof.
  intros Hguard Hgate Hhdrs Hget H307 H401 H500 s2.
  pose proof (attempt_answered url s1 hdrs w2 r Hhdrs Hget) as Hatt. fold s2 in Hatt.
  destruct (response_classification r s2) as (_ & Hok & Hforbidden & Hother).
  destruct (Z.eq_dec (status_code r) 200) as [H200 | H200].
  { rewrite (Hok H200) in *. destruct (text r =? "")%string.
    - split; [|reflexivity]. now apply (get_not_retried url retry_count s s1 s2).
    - split; [|reflexivity]. rewrite _get_eq.
      replace (retry_count >=? (if is_session_based (fst s) then 5 else 2)) with false
        by (symmetry; rewrite Z.geb_leb; apply Z.leb_gt; lia).
      now rewrite Hgate, Hatt. }
  destruct (Z.eq_dec (status_code r) 403) as [H403 | H403].
  { rewrite (Hforbidden H403) in *. split; [|reflexivity].
    now apply (get_not_retried url retry_count s s1 s2). }
  rewrite (Hother H200 H307 H401 H403 H500) in *. split; [|reflexivity].
  now apply (get_not_retried url retry_count s s1 s2).
Qed.


End Classification.

(* ================================================================== *)
(** ** Failures that end a request at once *)

Section FatalFailures.

Context {World : Type} `{Collaborators World} `{Externals}.

Variable locale : string.

(** X8.  When a 401 is answered and the refresh then fails, with anything
    but an [APIError] that carries the retry text, the request is not
    retried: [_get] ends with "Authentication failed - re-authentication
    required" after that one request and the one refresh call. *)
Theorem refresh_failure_is_fatal (url : string) (retry_count : Z) (s s1 : St World)
    (hdrs : list (string * string)) (w2 w3 : World) (r : Response) (e : exn) :
  retry_count < (if is_session_based (fst s) then 5 else 2) ->
  _ensure_valid_token true s = (s1, Ret tt) ->
  request_headers locale url (fst s1) = Ret hdrs ->
  client_get url hdrs (request_cookies (fst s1)) (fst s1) = (w2, Ret r) ->
  status_code r = 401 ->
  refresh_access_token w2 = (w3, Raise e) ->
  isinstance_APIError e && PyStr.contains TOKEN_EXPIRED_RETRY_MSG (exn_str e) = false ->
  _get locale url retry_count s
  = ((w3, (snd s1 ++ [EvGet url hdrs (request_cookies (fst s1)); EvRefresh])%list),
     raise_ APIError "Authentication failed - re-authentication required").
Proof.
  intros Hguard Hgate Hhdrs Hget H401 Hrefresh Hreal.
  apply (get_not_retried locale url retry_count s s1); try assumption;
    try reflexivity; try discriminate.
  rewrite (attempt_answered locale url s1 hdrs w2 r Hhdrs Hget).
  unfold _handle_response, bind. rewrite H401. cbn [Z.eqb Pos.eqb].
  unfold _handle_unauthorized_response, try_except, bind, read, call, raise_msg, raise.
  cbn [fst snd]. rewrite Hrefresh. rewrite <- app_assoc. cbn [app].
  destruct (isinstance_APIError e); [|reflexivity].
  cbn [andb] in Hreal. now rewrite Hreal.
Qed.

(** X9.  A failure of the token gate leaves [_get] as it is, wrapped in
    nothing and with no request made: when the token is due, there is no
    real refresh token and [authenticate] raises [e], [_get] raises [e]
    after the one call to [authenticate]. *)
Theorem gate_failure_escapes (url : string) (retry_count : Z) (s : St World)
    (w1 : World) (e : exn) :
  retry_count < (if is_session_based (fst s) then 5 else 2) ->
  needs_renewal (fst s) || is_token_expired (fst s) = true ->
  has_real_refresh_token (fst s) = false ->
  authenticate (fst s) = (w1, Raise e) ->
  _get locale url retry_count s = ((w1, (snd s ++ [EvAuthenticate])%list), Raise e).
Proof.
  intros Hguard Hdue Hreal Hauth. rewrite _get_eq.
  replace (retry_count >=? (if is_session_based (fst s) then 5 else 2)) with false
    by (symmetry; rewrite Z.geb_leb; apply Z.leb_gt; lia).
  unfold _ensure_valid_token, bind, read, ret, call. cbn [fst snd andb].
  destruct (needs_renewal (fst s)); cbn [orb] in Hdue; [|rewrite Hdue];
    now rewrite Hreal, Hauth.
Qed.

(** X10.  With a locale other than "SV" and "FI" no request is ever sent:
    once the gate has passed, [_get] fails with "GET request failed" in the
    state the gate left, and the two time-series methods raise the
    [ValueError] of the locale before they do anything. *)
Theorem unsupported_locale_sends_nothing (url : string) (retry_count : Z)
    (s s1 : St World) (nos : list string) (from_date to_date : datetime)
    (resolution : string) :
  locale <> "SV" -> locale <> "FI" ->
  (retry_count < (if is_session_based (fst s) then 5 else 2) ->
   _ensure_valid_token true s = (s1, Ret tt) ->
   _get locale url retry_count s = (s1, raise_ APIError "GET request failed"))
  /\ _fetch_time_series_data locale nos from_date to_date resolution s
     = (s, raise_ ValueError ("Unsupported locale: " ++ locale))
  /\ get_time_series_data locale nos (Some from_date) (Some to_date) resolution s
     = (s, raise_ ValueError ("Unsupported locale: " ++ locale)).
Proof.
  intros Hsv Hfi.
  assert (Hbase : get_fortum_base_url locale
                  = raise_ ValueError ("Unsupported locale: " ++ locale)).
  { unfold get_fortum_base_url.
    now rewrite (locale_eqb_neq _ _ Hsv), (locale_eqb_neq _ _ Hfi). }
  assert (Hfetch : forall f t,
             _fetch_time_series_data locale nos f t resolution s
             = (s, raise_ ValueError ("Unsupported locale: " ++ locale))).
  { intros f t. unfold _fetch_time_series_data, bind, pure.
    unfold APIEndpoints.get_time_series_url, get_time_series_base_url,
      get_trpc_base_url, get_api_base_url. now rewrite Hbase. }
  split; [|split].
  - intros Hguard Hgate. rewrite _get_eq.
    replace (retry_count >=? (if is_session_based (fst s) then 5 else 2)) with false
      by (symmetry; rewrite Z.geb_leb; apply Z.leb_gt; lia).
    rewrite Hgate. unfold attempt, bind, read, request_headers. cbn [fst snd].
    now rewrite Hbase.
  - apply Hfetch.
  - unfold get_time_series_data. cbn [bind ret]. unfold try_except.
    now rewrite Hfetch.
Qed.

(** The requests of a trace are counted on its projection. *)
Lemma count_gets_extends (a b : list event) (added : list (option float)) :
  io_trace a = (io_trace b ++ added)%list ->
  count_gets a
  = (count_gets b
     + List.length (filter (fun o => match o with None => true | Some _ => false end)
                      added))%nat.
Proof.
  intro Hio. now rewrite !count_gets_io, Hio, filter_app, length_app.
Qed.

Lemma sleeps_extends (a b : list event) (added : list (option float)) :
  io_trace a = (io_trace b ++ added)%list ->
  sleeps a
  = (sleeps b ++ flat_map (fun o => match o with None => [] | Some d => [d] end) added)%list.
Proof.
  intro Hio. now rewrite !sleeps_io, Hio, flat_map_app.
Qed.

(** From attempt [retry_count] on, whatever the world does and even if the
    mode changes on the way, [_get] adds at most one request per attempt
    that is left up to attempt 4, and one sleep less. *)
Lemma get_io_bounded (url : string) :
  forall (k : nat) (retry_count : Z) (s : St World),
    Z.to_nat (4 - retry_count) = k ->
    exists added,
      io_trace (snd (fst (_get locale url retry_count s)))
      = (io_trace (snd s) ++ added)%list
      /\ (List.length (filter (fun o => match o with None => true | Some _ => false end)
                         added) <= S k)%nat
      /\ (List.length (flat_map (fun o => match o with None => [] | Some d => [d] end)
                         added) <= k)%nat.
Proof.
  induction k as [|k IH]; intros retry_count s Hk; rewrite _get_eq.
  all: destruct (retry_count >=? _);
    [exists []; cbn; rewrite app_nil_r; repeat split; lia|].
  all: pose proof (gate_io true s) as Hgate;
    destruct (_ensure_valid_token true s) as [s1 [[]|e]]; cbn [fst snd] in *;
    [|exists []; cbn; rewrite app_nil_r; repeat split; (assumption || lia)].
  all: pose proof (attempt_io locale url s1) as Hatt;
    destruct (attempt locale url s1) as [s2 [r|exc]]; cbn [fst snd] in *.
  all: try (destruct Hatt as [Hatt | [_ (e & He & _)]]; [|discriminate];
            exists [None]; cbn; rewrite Hatt, Hgate; repeat split; lia).
  all: destruct (isinstance_APIError exc) eqn:Hapi.
  all: try (destruct Hatt as [Hatt | [Hatt _]];
            [exists [None]; cbn; rewrite Hatt, Hgate; repeat split; lia
            |exists []; cbn; subst s2; rewrite Hgate, app_nil_r; repeat split; lia]).
  all: destruct (retries exc retry_count s2) eqn:Hretry;
    [|destruct Hatt as [Hatt | [Hatt _]];
      [exists [None]; cbn; rewrite Hatt, Hgate; repeat split; lia
      |exists []; cbn; subst s2; rewrite Hgate, app_nil_r; repeat split; lia]].
  all: unfold retries in Hretry;
    apply andb_prop in Hretry; destruct Hretry as [_ Hlt];
    apply Z.ltb_lt in Hlt.
  - exfalso. destruct (is_session_based (fst s2)); lia.
  - destruct Hatt as [Hatt | [_ (e & He & Hne)]];
      [|injection He as <-; congruence].
    destruct (retry_delay (is_session_based (fst s2)) retry_count) as [delay|e].
    + destruct (IH (retry_count + 1) (after_sleep delay s2))
        as (added & Hio & Hgets & Hsleeps); [lia|].
      exists (None :: Some delay :: added).
      rewrite Hio, after_sleep_io, Hatt, Hgate. rewrite <- !app_assoc.
      cbn [app filter flat_map List.length]. repeat split; lia.
    + exists [None]. cbn. rewrite Hatt, Hgate. repeat split; lia.
Qed.

(** X11.  Whatever the server and the collaborator do, and even if the
    mode changes during the call, one call of [_get] makes at most 5
    requests and sleeps at most 4 times. *)
Theorem attempts_bounded (url : string) (s : St World) :
  (count_gets (snd (fst (_get locale url 0 s))) <= count_gets (snd s) + 5)%nat
  /\ (List.length (sleeps (snd (fst (_get locale url 0 s))))
      <= List.length (sleeps (snd s)) + 4)%nat.
Proof.
  destruct (get_io_bounded url 4 0 s eq_refl) as (added & Hio & Hgets & Hsleeps).
  rewrite (count_gets_extends _ _ _ Hio), (sleeps_extends _ _ _ Hio), length_app.
  split; lia.
Qed.

End FatalFailures.

(* ================================================================== *)
(** ** The calls of the gate, and the headers of a request *)

Lemma fetch_ranges_app (a b : list event) :
  fetch_ranges (a ++ b) = (fetch_ranges a ++ fetch_ranges b)%list.
Proof.
  induction a as [|ev a IH]; [reflexivity|].
  destruct ev; cbn [fetch_ranges app]; now rewrite IH.
Qed.

Section GateAndHeaders.

Context {World : Type} `{Collaborators World} `{Externals}.

Variable locale : string.

(** What the gate adds to the trace, and with which result. *)
Lemma gate_trace (proactive : bool) (s : St World) :
  exists calls,
    snd (fst (_ensure_valid_token proactive s)) = (snd s ++ calls)%list
    /\ ((calls = [] /\ _ensure_valid_token proactive s = (s, Ret tt))
        \/ (calls = [EvRefresh] /\ snd (_ensure_valid_token proactive s) = Ret tt)
        \/ calls = [EvRefresh; EvAuthenticate]
        \/ calls = [EvAuthenticate]).
Proof.
  unfold _ensure_valid_token, bind, read, try_except, call, ret.
  destruct (if proactive && needs_renewal (fst s) then true
            else if is_token_expired (fst s) then true else false).
  2:{ exists []. rewrite app_nil_r. now split; [|left]. }
  cbn [fst snd].
  destruct (has_real_refresh_token (fst s)).
  - destruct (refresh_access_token (fst s)) as [w1 [[]|e]]; cbn [fst snd].
    + exists [EvRefresh]. split; [reflexivity | right; left; now split].
    + destruct (authenticate w1) as [w2 r]; cbn [fst snd].
      exists [EvRefresh; EvAuthenticate]. rewrite <- app_assoc.
      split; [reflexivity | now right; right; left].
  - destruct (authenticate (fst s)) as [w1 r]; cbn [fst snd].
    exists [EvAuthenticate]. split; [reflexivity | now right; right; right].
Qed.

(** X12.  The gate calls the collaborator at most twice and in one of four
    ways: not at all, refresh alone, refresh then authenticate, or
    authenticate alone; it can only fail in the last two, so a failed
    refresh alone never fails it.  With a token that has not expired it does
    nothing when it is not proactive or no renewal is due. *)
Theorem gate_calls (proactive : bool) (s : St World) :
  (exists calls,
     snd (fst (_ensure_valid_token proactive s)) = (snd s ++ calls)%list
     /\ ((calls = [] /\ _ensure_valid_token proactive s = (s, Ret tt))
         \/ (calls = [EvRefresh] /\ snd (_ensure_valid_token proactive s) = Ret tt)
         \/ calls = [EvRefresh; EvAuthenticate]
         \/ calls = [EvAuthenticate]))
  /\ (is_token_expired (fst s) = false ->
      proactive = false \/ needs_renewal (fst s) = false ->
      _ensure_valid_token proactive s = (s, Ret tt)).
Proof.
  split; [apply gate_trace|].
  intros Hexp Hquiet. unfold _ensure_valid_token, bind, read, ret. cbn [fst snd].
  rewrite Hexp. now destruct Hquiet as [-> | ->]; [|rewrite andb_false_r].
Qed.

(** X13.  A request carries the four fixed headers, and after them an
    Authorization header exactly when its URL contains neither "/api/trpc/"
    nor "/api/auth/session" and the access token is present, not empty and
    not "session_based".  The session URL and every time-series URL of a
    locale are therefore requested without it, whatever the token. *)
Theorem authorization_policy (url : string) (w : World) (hdrs : list (string * string))
    (nos : list string) (from_date to_date : datetime) (resolution : string) :
  request_headers locale url w = Ret hdrs ->
  map fst hdrs
  = (base_header_names
     ++ (if negb (PyStr.contains "/api/trpc/" url)
            && negb (PyStr.contains "/api/auth/session" url)
            && PyStr.truthy (access_token w)
            && negb (match access_token w with
                     | Some t => (t =? "session_based")%string
                     | None => false
                     end)
         then ["Authorization"] else []))%list
  /\ (forall u h, get_session_url locale = Ret u ->
        request_headers locale u w = Ret h -> map fst h = base_header_names)
  /\ (forall u h,
        APIEndpoints.get_time_series_url locale nos from_date to_date resolution = Ret u ->
        request_headers locale u w = Ret h -> map fst h = base_header_names).
Proof.
  assert (Hnames : forall u h, request_headers locale u w = Ret h ->
            map fst h
            = (base_header_names
               ++ (if negb (PyStr.contains "/api/trpc/" u)
                      && negb (PyStr.contains "/api/auth/session" u)
                      && PyStr.truthy (access_token w)
                      && negb (match access_token w with
                               | Some t => (t =? "session_based")%string
                               | None => false
                               end)
                   then ["Authorization"] else []))%list).
  { intros u h. unfold request_headers.
    destruct (get_fortum_base_url locale) as [base|e]; cbn [obind]; [|discriminate].
    destruct (_ && _); intro Heq; injection Heq as <-; reflexivity. }
  intro Hhdrs. split; [now apply Hnames | split].
  - intros u h Hu Hh. rewrite (Hnames u h Hh).
    assert (Hc : PyStr.contains "/api/auth/session" u = true).
    { revert Hu. unfold get_session_url, get_api_base_url, get_fortum_base_url.
      destruct (locale =? "SV")%string; [|destruct (locale =? "FI")%string];
        cbn [obind raise_]; intro Heq; try discriminate;
        injection Heq as <-; reflexivity. }
    rewrite Hc. cbn [negb andb]. now rewrite andb_false_r.
  - intros u h Hu Hh. rewrite (Hnames u h Hh).
    assert (Hc : PyStr.contains "/api/trpc/" u = true).
    { revert Hu. unfold APIEndpoints.get_time_series_url, get_time_series_base_url,
        get_trpc_base_url, get_api_base_url, get_fortum_base_url.
      destruct (locale =? "SV")%string; [|destruct (locale =? "FI")%string];
        cbn [obind raise_]; intro Heq; try discriminate;
        injection Heq as <-; vm_compute; reflexivity. }
    now rewrite Hc.
Qed.

End GateAndHeaders.

(* ================================================================== *)
(** ** The time-series methods *)

Lemma map_outcome_length {A B} (f : A -> outcome B) (l : list A) (out : list B) :
  map_outcome f l = Ret out -> List.length out = List.length l.
Proof.
  revert out. induction l as [|x l IH]; intros out Hout.
  - now injection Hout as <-.
  - cbn [map_outcome obind] in Hout. destruct (f x) as [y|e]; [|discriminate].
    cbn [obind] in Hout. destruct (map_outcome f l) as [ys|e]; [|discriminate].
    injection Hout as <-. cbn [List.length]. now rewrite (IH ys eq_refl).
Qed.

Section TimeSeriesFacts.

Context {World : Type} `{Collaborators World} `{Externals}.

Variable locale : string.

Lemma handle_response_no_fetch (r : Response) (s : St World) :
  fetch_ranges (snd (fst (_handle_response r s))) = fetch_ranges (snd s).
Proof.
  unfold _handle_response, bind.
  destruct (status_code r =? 307).
  { unfold pure. now destruct (_handle_redirect_response r) as [[]|e];
      [destruct (text r =? "")%string|]. }
  destruct (status_code r =? 401).
  { unfold _handle_unauthorized_response, try_except, bind, read, call, raise_msg, raise.
    cbn [fst snd].
    destruct (refresh_access_token (fst s)) as [w1 [[]|e]]; cbn [fst snd].
    - cbn. rewrite fetch_ranges_app. cbn. now rewrite app_nil_r.
    - destruct (isinstance_APIError e); [destruct (PyStr.contains _ _)|];
        cbn [fst snd]; rewrite fetch_ranges_app; cbn; now rewrite app_nil_r. }
  destruct (status_code r =? 403); [reflexivity|].
  destruct (status_code r =? 500).
  { unfold pure. now destruct (_handle_server_error_response r) as [[]|e];
      [destruct (text r =? "")%string|]. }
  destruct (negb (status_code r =? 200)); [reflexivity|].
  unfold ret. now destruct (text r =? "")%string.
Qed.

Lemma gate_no_fetch (proactive : bool) (s : St World) :
  fetch_ranges (snd (fst (_ensure_valid_token proactive s))) = fetch_ranges (snd s).
Proof.
  destruct (gate_trace proactive s) as (calls & -> & Hcalls).
  rewrite fetch_ranges_app.
  destruct Hcalls as [[-> _] | [[-> _] | [-> | ->]]]; cbn; now rewrite app_nil_r.
Qed.

Lemma attempt_no_fetch (url : string) (s : St World) :
  fetch_ranges (snd (fst (attempt locale url s))) = fetch_ranges (snd s).
Proof.
  unfold attempt, bind, read. cbn [fst snd].
  destruct (request_headers locale url (fst s)) as [hdrs|e]; [|reflexivity].
  unfold call. cbn [fst snd].
  destruct (client_get url hdrs (request_cookies (fst s)) (fst s)) as [w1 [r|e]];
    cbn [fst snd];
    try (rewrite handle_response_no_fetch; cbn [snd]);
    rewrite fetch_ranges_app; cbn; now rewrite app_nil_r.
Qed.

(** [_get] logs no time-series request of its own. *)
Lemma get_no_fetch (url : string) :
  forall (k : nat) (retry_count : Z) (s : St World),
    Z.to_nat (4 - retry_count) = k ->
    fetch_ranges (snd (fst (_get locale url retry_count s))) = fetch_ranges (snd s).
Proof.
  induction k as [|k IH]; intros retry_count s Hk; rewrite _get_eq.
  all: destruct (retry_count >=? _); [reflexivity|].
  all: pose proof (gate_no_fetch true s) as Hgate;
    destruct (_ensure_valid_token true s) as [s1 [[]|e]]; cbn [fst snd] in *;
    [|exact Hgate].
  all: pose proof (attempt_no_fetch url s1) as Hatt;
    destruct (attempt locale url s1) as [s2 [r|exc]]; cbn [fst snd] in *;
    [now rewrite Hatt|].
  all: destruct (isinstance_APIError exc); [|cbn [fst snd]; now rewrite Hatt].
  all: destruct (retries exc retry_count s2) eqn:Hretry;
    [|cbn [fst snd]; now rewrite Hatt].
  all: unfold retries in Hretry;
    apply andb_prop in Hretry; destruct Hretry as [_ Hlt];
    apply Z.ltb_lt in Hlt.
  - exfalso. destruct (is_session_based (fst s2)); lia.
  - destruct (retry_delay (is_session_based (fst s2)) retry_count) as [delay|e];
      [|cbn [fst snd]; now rewrite Hatt].
    rewrite IH by lia. unfold after_sleep. cbn [snd].
    rewrite fetch_ranges_app. cbn [fetch_ranges]. now rewrite app_nil_r, Hatt.
Qed.

(** A request added to a trace is one more request of it. *)
Lemma count_gets_app (a b : list event) :
  count_gets (a ++ b) = (count_gets a + count_gets b)%nat.
Proof.
  induction a as [|ev a IH]; [reflexivity|].
  destruct ev; cbn [count_gets app]; rewrite IH; reflexivity.
Qed.

Lemma get_gets_bounded (url : string) (s : St World) :
  (count_gets (snd (fst (_get locale url 0 s))) <= count_gets (snd s) + 5)%nat.
Proof.
  destruct (get_io_bounded locale url 4 0 s eq_refl) as (added & Hio & Hgets & _).
  rewrite (count_gets_extends _ _ _ Hio). lia.
Qed.

(** The handler of [_fetch_time_series_data] leaves the state as it is. *)
Lemma fetch_handler_state (o : outcome (list TimeSeries)) (s1 : St World) :
  fst (match o with
       | Ret a => (s1, Ret a)
       | Raise e =>
           (if fetch_catches e
            then raise_msg InvalidResponseError
                   ("Invalid time series response: " ++ exn_str e)
            else raise e) s1
       end) = s1.
Proof.
  destruct o as [v|e]; [reflexivity|]. unfold raise_msg, raise.
  now destruct (fetch_catches e).
Qed.

(** One fetch logs at most one range and makes at most 5 requests, and a
    fetch that makes no request logs none. *)
Lemma fetch_bounded (nos : list string) (f t : datetime) (res : string) (s : St World) :
  (List.length (fetch_ranges (snd (fst (_fetch_time_series_data locale nos f t res s))))
   <= List.length (fetch_ranges (snd s)) + 1)%nat
  /\ (count_gets (snd (fst (_fetch_time_series_data locale nos f t res s)))
      <= count_gets (snd s) + 5)%nat.
Proof.
  unfold _fetch_time_series_data, bind, pure, emit.
  destruct (APIEndpoints.get_time_series_url locale nos f t res) as [url|e];
    [|cbn [fst snd]; lia].
  cbn [fst snd].
  set (s0 := (fst s, (snd s ++ [EvFetch f t res])%list)).
  pose proof (get_no_fetch url 4 0 s0 eq_refl) as Hfetch.
  pose proof (get_gets_bounded url s0) as Hgets.
  assert (Hs0 : fetch_ranges (snd s0) = (fetch_ranges (snd s) ++ [(f, t)])%list
                /\ count_gets (snd s0) = count_gets (snd s)).
  { subst s0. cbn [snd]. rewrite fetch_ranges_app, count_gets_app. cbn.
    split; [reflexivity | lia]. }
  destruct Hs0 as [Hfr Hcg]. rewrite Hfr in Hfetch. rewrite Hcg in Hgets.
  destruct (_get locale url 0 s0) as [s1 [response|e]]; cbn [fst snd] in *.
  2:{ rewrite Hfetch, length_app. cbn. lia. }
  unfold try_except.
  destruct (_parse_trpc_response response) as [data|e]; cbn [fst snd].
  - destruct data; rewrite fetch_handler_state, Hfetch, length_app; cbn; lia.
  - rewrite (fetch_handler_state (Raise e)), Hfetch, length_app. cbn. lia.
Qed.

End TimeSeriesFacts.

Section TimeSeriesBounds.

Context {World : Type} `{Collaborators World} `{Externals}.

Variable locale : string.

Lemma last_days_trace (n : Z) (s : St World) :
  snd (fst (last_days n s)) = snd s.
Proof.
  rewrite last_days_eq. cbv zeta.
  now destruct (PyDate.sub_days (snd (now (fst s))) n).
Qed.

(** The dates a call works with: the readings of the clock that fix them
    add nothing to the trace. *)
Lemma time_series_dates (nos : list string) (from_date to_date : option datetime)
    (res : string) (s : St World) :
  (exists s' e, get_time_series_data locale nos from_date to_date res s = (s', Raise e)
                /\ snd s' = snd s)
  \/ (exists s' f t,
        get_time_series_data locale nos from_date to_date res s
        = get_time_series_data locale nos (Some f) (Some t) res s'
        /\ snd s' = snd s).
Proof.
  destruct (now (fst s)) as [w1 t1] eqn:Hnow.
  destruct (now w1) as [w2 t2] eqn:Hnow2.
  destruct (PyDate.sub_days (PyDate.replace_day t1 1) 90) as [f0|e0] eqn:Hsub.
  all: destruct from_date as [f|]; destruct to_date as [t|].
  all: try (right; now exists s, f, t).
  all: try (right; exists (w1, snd s), f, t1; split; [|reflexivity];
            unfold get_time_series_data at 1; cbn [bind ret]; unfold bind at 1;
            unfold datetime_now at 1; rewrite Hnow; reflexivity).
  - right. exists (w1, snd s), f0, t. split; [|reflexivity].
    unfold get_time_series_data at 1. unfold bind at 1. unfold bind at 1.
    unfold datetime_now at 1. rewrite Hnow. cbn [fst snd].
    unfold pure at 1. rewrite Hsub. reflexivity.
  - right. exists (w2, snd s), f0, t2. split; [|reflexivity].
    unfold get_time_series_data at 1. unfold bind at 1. unfold bind at 1.
    unfold datetime_now at 1. rewrite Hnow. cbn [fst snd].
    unfold pure at 1. rewrite Hsub.
    unfold bind at 1. unfold datetime_now at 1. cbn [fst snd]. rewrite Hnow2.
    reflexivity.
  - left. exists (w1, snd s), e0. split; [|reflexivity].
    unfold get_time_series_data. unfold bind at 1. unfold bind at 1.
    unfold datetime_now at 1. rewrite Hnow. cbn [fst snd].
    unfold pure at 1. rewrite Hsub. reflexivity.
  - left. exists (w1, snd s), e0. split; [|reflexivity].
    unfold get_time_series_data. unfold bind at 1. unfold bind at 1.
    unfold datetime_now at 1. rewrite Hnow. cbn [fst snd].
    unfold pure at 1. rewrite Hsub. reflexivity.
Qed.

Lemma ladder_bounded (nos : list string) (f t : datetime) (res : string) (s : St World) :
  (List.length (fetch_ranges
                  (snd (fst (get_time_series_data locale nos (Some f) (Some t) res s))))
   <= List.length (fetch_ranges (snd s)) + 3)%nat
  /\ (count_gets (snd (fst (get_time_series_data locale nos (Some f) (Some t) res s)))
      <= count_gets (snd s) + 15)%nat.
Proof.
  rewrite ladder_eq.
  pose proof (fetch_bounded locale nos f t res s) as [Hf1 Hg1].
  destruct (_fetch_time_series_data locale nos f t res s) as [s1 [v|e1]];
    cbn [fst snd] in *; [lia|].
  destruct (ladder_trigger e1); [|cbn [fst snd]; lia].
  pose proof (last_days_trace 30 s1) as H30.
  destruct (last_days 30 s1) as [s2 [[f30 t30]|e]]; cbn [fst snd] in *;
    [|rewrite H30; lia].
  pose proof (fetch_bounded locale nos f30 t30 res s2) as [Hf2 Hg2].
  rewrite H30 in Hf2, Hg2.
  destruct (_fetch_time_series_data locale nos f30 t30 res s2) as [s3 [v|e2]];
    cbn [fst snd] in *; [lia|].
  destruct (isinstance_APIError e2); [|cbn [fst snd]; lia].
  pose proof (last_days_trace 7 s3) as H7.
  destruct (last_days 7 s3) as [s4 [[f7 t7]|e]]; cbn [fst snd] in *;
    [|rewrite H7; lia].
  pose proof (fetch_bounded locale nos f7 t7 res s4) as [Hf3 Hg3].
  rewrite H7 in Hf3, Hg3. lia.
Qed.

(** X14.  One call of [get_time_series_data], with or without dates, makes
    at most three time-series requests, one per range of the ladder, and so
    at most 15 physical requests, whatever the server answers. *)
Theorem time_series_bounded (nos : list string) (from_date to_date : option datetime)
    (res : string) (s : St World) :
  (List.length (fetch_ranges
                  (snd (fst (get_time_series_data locale nos from_date to_date res s))))
   <= List.length (fetch_ranges (snd s)) + 3)%nat
  /\ (count_gets (snd (fst (get_time_series_data locale nos from_date to_date res s)))
      <= count_gets (snd s) + 15)%nat.
Proof.
  destruct (time_series_dates nos from_date to_date res s)
    as [(s' & e & -> & Hs) | (s' & f & t & -> & Hs)].
  - cbn [fst snd]. rewrite Hs. lia.
  - rewrite <- Hs. apply ladder_bounded.
Qed.


End TimeSeriesBounds.

(* ================================================================== *)
(** ** The methods on the session endpoint *)

Section SessionMethods.

Context {World : Type} `{Collaborators World} `{AuthIdentity World} `{Models}.

Variable locale : string.

(** X16.  Once the pipeline has returned the session response,
    [get_metering_points] never raises a [ValueError], [KeyError] or
    [TypeError]: a body that is no JSON, like any such failure of the
    parsing, is a malformed-response error.  A session object with no
    "user", or whose user has no "deliverySites", gives the empty list, and
    a list of sites gives one metering point per site. *)
Theorem metering_points_of_session (url : string) (s s1 : St World)
    (response : Response) :
  get_session_url locale = Ret url ->
  _get locale url 0 s = (s1, Ret response) ->
  let out := get_metering_points locale s in
  fst out = s1
  /\ (forall e, snd out = Raise e -> fetch_catches e = false)
  /\ (forall msg, resp_json response = raise_ ValueError msg ->
        snd out = raise_ InvalidResponseError
                    ("Invalid metering points response: " ++ msg))
  /\ (forall m, resp_json response = Ret (JObj m) ->
        PyJson.assoc "user" m = None -> snd out = Ret [])
  /\ (forall m u, resp_json response = Ret (JObj m) ->
        PyJson.assoc "user" m = Some (JObj u) ->
        PyJson.assoc "deliverySites" u = None -> snd out = Ret [])
  /\ (forall m u sites points, resp_json response = Ret (JObj m) ->
        PyJson.assoc "user" m = Some (JObj u) ->
        PyJson.assoc "deliverySites" u = Some (JArr sites) ->
        map_outcome MeteringPoint_from_api_response sites = Ret points ->
        snd out = Ret points /\ List.length points = List.length sites)
  /\ (forall m, resp_json response = Ret (JObj m) ->
        PyJson.assoc "user" m = Some JNull ->
        exists e, snd out = Raise e /\ exn_class_of e = InvalidResponseError).
Proof.
  intros Hurl Hget out. subst out.
  unfold get_metering_points, bind, pure. rewrite Hurl. cbn [fst snd].
  rewrite Hget. unfold try_except.
  assert (Hhandler : forall (o : outcome (list MeteringPoint)),
             let r := match o with
                      | Ret a => (s1, Ret a)
                      | Raise e0 =>
                          (if fetch_catches e0
                           then raise_msg InvalidResponseError
                                  ("Invalid metering points response: " ++ exn_str e0)
                           else raise e0) s1
                      end in
             fst r = s1 /\ (forall e, snd r = Raise e -> fetch_catches e = false)).
  { intros [v|e0]; cbn zeta; [split; [reflexivity | discriminate]|].
    unfold raise_msg, raise. destruct (fetch_catches e0) eqn:Hc; cbn [fst snd];
      (split; [reflexivity|]); intros e Heq; injection Heq as <-;
      [reflexivity | exact Hc]. }
  split; [apply Hhandler | split; [apply Hhandler|]].
  split; [|split; [|split; [|split]]].
  - intros msg ->. reflexivity.
  - intros m -> Hno. cbn [obind]. unfold delivery_sites.
    cbn [PyJson.contains_key obind]. now rewrite Hno.
  - intros m u -> Hu Hno. cbn [obind]. unfold delivery_sites.
    cbn [PyJson.contains_key PyJson.getitem obind]. rewrite Hu.
    cbn [PyJson.contains_key obind]. now rewrite Hno.
  - intros m u sites points -> Hu Hsites Hmap.
    split; [|exact (map_outcome_length _ _ _ Hmap)].
    cbn [obind]. unfold delivery_sites.
    cbn [PyJson.contains_key PyJson.getitem obind]. rewrite Hu.
    cbn [PyJson.contains_key PyJson.getitem obind]. rewrite Hsites.
    cbn [obind py_iter]. now rewrite Hmap.
  - intros m -> Hu. cbn [obind]. unfold delivery_sites.
    cbn [PyJson.contains_key PyJson.getitem obind]. rewrite Hu.
    cbn. eexists. split; reflexivity.
Qed.


(** X18.  [get_customer_id] calls nothing and prefers the session: a true
    [user.customerId] of the session data is returned whatever the id token
    is.  Without one, a missing or empty id token is the error "No ID token
    or session data available", the token "session_based" is the error
    "Customer ID not found in session data" with no decoding, and any other
    token is decoded: [customerid[0].crmid] of the payload is returned, a
    [KeyError], [IndexError] or [ValueError] on the way is an [APIError],
    and any other exception of the decoding leaves the method as it is. *)
Theorem customer_id_sources (s : St World) :
  fst (get_customer_id s) = s
  /\ (forall m u cid, session_data (fst s) = Some (JObj m) ->
        PyJson.assoc "user" m = Some (JObj u) ->
        PyJson.assoc "customerId" u = Some cid -> PyJson.truthy cid = true ->
        get_customer_id s = (s, Ret cid))
  /\ (session_data (fst s) = None -> session_customer_id (session_data (fst s)) = Ret None)
  /\ (forall m, session_data (fst s) = Some (JObj m) -> PyJson.assoc "user" m = None ->
        session_customer_id (session_data (fst s)) = Ret None)
  /\ (forall m u, session_data (fst s) = Some (JObj m) ->
        PyJson.assoc "user" m = Some (JObj u) ->
        PyJson.assoc "customerId" u = None
        \/ PyJson.assoc "customerId" u = Some JNull
        \/ PyJson.assoc "customerId" u = Some (JStr "") ->
        session_customer_id (session_data (fst s)) = Ret None)
  /\ (session_customer_id (session_data (fst s)) = Ret None ->
      (PyStr.truthy (id_token (fst s)) = false ->
       get_customer_id s = (s, raise_ APIError "No ID token or session data available"))
      /\ (id_token (fst s) = Some "session_based" ->
          get_customer_id s
          = (s, raise_ APIError "Customer ID not found in session data"))
      /\ (forall token, id_token (fst s) = Some token ->
            token <> "" -> token <> "session_based" ->
            get_customer_id s
            = (s, match (payload <- jwt_decode token ;;
                         ids <- PyJson.getitem payload "customerid" ;;
                         entry <- PyJson.first ids ;;
                         PyJson.getitem entry "crmid")%outcome with
                  | Ret v => Ret v
                  | Raise e =>
                      if customer_id_catches e
                      then raise_ APIError ("Failed to extract customer ID: " ++ exn_str e)
                      else Raise e
                  end))).
Proof.
  split; [|split; [|split; [|split; [|split]]]].
  - unfold get_customer_id, bind, read, pure, ret, raise_msg, raise, try_except.
    cbn [fst snd].
    destruct (session_customer_id (session_data (fst s))) as [[cid|]|e];
      cbn [fst snd]; try reflexivity.
    destruct (negb (PyStr.truthy (id_token (fst s)))); [reflexivity|].
    destruct (id_token (fst s)) as [t|]; [destruct (t =? "session_based")%string|];
      try reflexivity.
    all: match goal with
         | |- context [obind ?a ?k] => destruct (obind a k) as [v|e]
         end; [reflexivity | now destruct (customer_id_catches e)].
  - intros m u cid Hdata Huser Hcid Htrue.
    unfold get_customer_id, bind, read, pure, ret. cbn [fst snd]. rewrite Hdata.
    unfold session_customer_id.
    assert (Hm : PyJson.truthy (JObj m) = true).
    { destruct m; [discriminate | reflexivity]. }
    rewrite Hm. cbn [PyJson.contains_key PyJson.getitem obind]. rewrite Huser.
    cbn [PyJson.get obind]. rewrite Hcid, Htrue. reflexivity.
  - now intros ->.
  - intros m -> Hno. unfold session_customer_id.
    destruct (PyJson.truthy (JObj m)); [|reflexivity].
    cbn [PyJson.contains_key obind]. now rewrite Hno.
  - intros m u -> Huser Hcid. unfold session_customer_id.
    destruct (PyJson.truthy (JObj m)); [|reflexivity].
    cbn [PyJson.contains_key PyJson.getitem obind]. rewrite Huser.
    cbn [PyJson.get obind].
    now destruct Hcid as [-> | [-> | ->]].
  - intro Hnone. unfold get_customer_id, bind, read, pure, ret, raise_msg, raise,
      try_except.
    cbn [fst snd]. rewrite Hnone. cbn [fst snd].
    split; [|split].
    + now intros ->.
    + now intros ->.
    + intros token -> Hne Hns. cbn [PyStr.truthy].
      apply String.eqb_neq in Hne, Hns. rewrite Hne, Hns. cbn [negb].
      match goal with
      | |- context [obind ?a ?k] => destruct (obind a k) as [v|e]
      end; [reflexivity | now destruct (customer_id_catches e)].
Qed.

(** X19.  Without metering point numbers, [None] or an empty list alike,
    [get_consumption_data] asks the session first: when the session object
    has no "user", it fails with "No metering points found for customer"
    and no time-series request is made; [get_total_consumption] is that
    call. *)
Theorem consumption_needs_metering_points (url : string) (s s1 : St World)
    (response : Response) (m : list (string * json))
    (from_date to_date : option datetime) (resolution : string) :
  get_session_url locale = Ret url ->
  _get locale url 0 s = (s1, Ret response) ->
  resp_json response = Ret (JObj m) ->
  PyJson.assoc "user" m = None ->
  get_consumption_data locale None from_date to_date resolution s
  = (s1, raise_ APIError "No metering points found for customer")
  /\ get_consumption_data locale (Some []) from_date to_date resolution s
     = (s1, raise_ APIError "No metering points found for customer")
  /\ get_total_consumption locale s
     = (s1, raise_ APIError "No metering points found for customer")
  /\ fetch_ranges (snd s1) = fetch_ranges (snd s).
Proof.
  intros Hurl Hget Hdoc Huser.
  assert (Hpoints : get_metering_points locale s = (s1, Ret [])).
  { unfold get_metering_points, bind, pure. rewrite Hurl. cbn [fst snd].
    rewrite Hget. unfold try_except. rewrite Hdoc. cbn [obind].
    unfold delivery_sites. cbn [PyJson.contains_key obind]. now rewrite Huser. }
  split; [|split; [|split]].
  - unfold get_consumption_data. unfold bind at 1. unfold bind at 1.
    now rewrite Hpoints.
  - unfold get_consumption_data. unfold bind at 1. unfold bind at 1.
    now rewrite Hpoints.
  - unfold get_total_consumption, get_consumption_data.
    unfold bind at 1. unfold bind at 1. now rewrite Hpoints.
  - pose proof (get_no_fetch locale url 4 0 s eq_refl) as Hfetch.
    now rewrite Hget in Hfetch.
Qed.

End SessionMethods.

(* ================================================================== *)
(** ** The further properties in the scripted world *)

(** [status_not_retried] on a 404 from the session endpoint. *)
Lemma status_not_retried_witness :
  let world := Sim.quiet [Sim.response 404 "Not Found" [] Sim.not_json]
                 Sim.unauthorized [] in
  let out := Sim.run (Sim.get Sim.session_mode "SV"
                        "https://www.fortum.com/se/el/api/auth/session" 0) world in
  count_gets (snd (fst out)) = 1%nat
  /\ snd out = raise_ UnexpectedStatusCodeError "Unexpected status code 404: Not Found".
Proof.
  cbv zeta.
  pose proof (@status_not_retried Sim.world (Sim.collaborators Sim.session_mode)
                Sim.externals "SV" "https://www.fortum.com/se/el/api/auth/session" 0
                (Sim.quiet [Sim.response 404 "Not Found" [] Sim.not_json]
                   Sim.unauthorized [], [])
                _ _ _ _ ltac:(cbn; lia) eq_refl eq_refl eq_refl
                ltac:(cbn; lia) ltac:(cbn; lia) ltac:(cbn; lia)) as Hrun.
  cbv zeta in Hrun. destruct Hrun as [Hrun _].
  unfold Sim.run, Sim.get. rewrite Hrun. split; reflexivity.
Defined.


(** [refresh_failure_is_fatal]: a 401 whose refresh is refused. *)
Lemma refresh_failure_is_fatal_witness :
  let world := Sim.mk_world (Some "access") [] false false
                 (raise_ (OtherException "OAuth2Error") "invalid_grant") (Ret tt)
                 [] Sim.unauthorized [] (Sim.noon 2023 5 15) in
  let out := Sim.run (Sim.get Sim.credential_mode "SV"
                        "https://www.fortum.com/se/el/api/auth/session" 0) world in
  count_gets (snd (fst out)) = 1%nat
  /\ sleeps (snd (fst out)) = []
  /\ snd out = raise_ APIError "Authentication failed - re-authentication required".
Proof.
  cbv zeta.
  pose proof (@refresh_failure_is_fatal Sim.world (Sim.collaborators Sim.credential_mode)
                Sim.externals "SV" "https://www.fortum.com/se/el/api/auth/session" 0
                (Sim.mk_world (Some "access") [] false false
                   (raise_ (OtherException "OAuth2Error") "invalid_grant") (Ret tt)
                   [] Sim.unauthorized [] (Sim.noon 2023 5 15), [])
                _ _ _ _ _ _ ltac:(cbn; lia) eq_refl eq_refl eq_refl eq_refl eq_refl
                eq_refl) as Hrun.
  unfold Sim.run, Sim.get. rewrite Hrun. repeat split.
Defined.

(** [gate_failure_escapes]: an expired session whose login fails. *)
Lemma gate_failure_escapes_witness :
  let world := Sim.mk_world (Some "session_based") [] false true (Ret tt)
                 (raise_ (OtherException "AuthenticationError") "login failed")
                 [] Sim.unauthorized [] (Sim.noon 2023 5 15) in
  Sim.run (Sim.get Sim.session_mode "SV"
             "https://www.fortum.com/se/el/api/auth/session" 0) world
  = ((world, [EvAuthenticate]),
     raise_ (OtherException "AuthenticationError") "login failed").
Proof.
  cbv zeta.
  exact (@gate_failure_escapes Sim.world (Sim.collaborators Sim.session_mode)
           Sim.externals "SV" "https://www.fortum.com/se/el/api/auth/session" 0
           (Sim.mk_world (Some "session_based") [] false true (Ret tt)
              (raise_ (OtherException "AuthenticationError") "login failed")
              [] Sim.unauthorized [] (Sim.noon 2023 5 15), [])
           _ _ ltac:(cbn; lia) eq_refl eq_refl eq_refl).
Defined.

(** [unsupported_locale_sends_nothing] on the locale "NO". *)
Lemma unsupported_locale_sends_nothing_witness :
  let world := Sim.quiet [] (Sim.success (JArr [])) [] in
  Sim.run (Sim.fetch Sim.session_mode "NO" ["735999"]
             (Sim.noon 2023 1 31) (Sim.noon 2023 5 15) "MONTH") world
  = ((world, []), raise_ ValueError "Unsupported locale: NO")
  /\ Sim.run (Sim.get Sim.session_mode "NO" "https://www.fortum.com/" 0) world
     = ((world, []), raise_ APIError "GET request failed").
Proof.
  cbv zeta.
  pose proof (@unsupported_locale_sends_nothing Sim.world
                (Sim.collaborators Sim.session_mode) Sim.externals "NO"
                "https://www.fortum.com/" 0
                (Sim.quiet [] (Sim.success (JArr [])) [], [])
                (Sim.quiet [] (Sim.success (JArr [])) [], []) ["735999"]
                (Sim.noon 2023 1 31) (Sim.noon 2023 5 15) "MONTH"
                ltac:(discriminate) ltac:(discriminate)) as (Hget & Hfetch & _).
  split; [exact Hfetch | exact (Hget ltac:(cbn; lia) eq_refl)].
Defined.

(** [authorization_policy]: a credential token on a URL that is neither
    the session endpoint nor a tRPC endpoint. *)
Lemma authorization_policy_witness :
  let world := Sim.expired (Ret tt) in
  exists hdrs,
    @request_headers Sim.world (Sim.collaborators Sim.credential_mode)
      "SV" "https://www.fortum.com/se/el/api/other" world = Ret hdrs
    /\ map fst hdrs
       = ["Accept"; "User-Agent"; "Content-Type"; "Referer"; "Authorization"].
Proof.
  cbv zeta. eexists. split; [reflexivity|].
  exact (proj1 (@authorization_policy Sim.world (Sim.collaborators Sim.credential_mode)
                  Sim.externals "SV" "https://www.fortum.com/se/el/api/other"
                  (Sim.expired (Ret tt)) _ [] (Sim.noon 2023 1 31) (Sim.noon 2023 5 15)
                  "MONTH" eq_refl)).
Defined.


(** [metering_points_of_session] on a session with one delivery site. *)
Lemma metering_points_of_session_witness :
  let site := JObj [("consumption", JObj [("meteringPointNo", JStr "735999")])] in
  let world :=
    Sim.quiet [SimModels.session (JObj [("user", JObj [("deliverySites", JArr [site])])])]
      Sim.unauthorized [] in
  snd (@get_metering_points Sim.world (Sim.collaborators Sim.session_mode)
         Sim.externals SimModels.models "SV" (world, []))
  = Ret [site].
Proof.
  cbv zeta.
  pose proof (@metering_points_of_session Sim.world (Sim.collaborators Sim.session_mode)
                Sim.externals SimModels.models "SV" _
                (Sim.quiet
                   [SimModels.session
                      (JObj [("user",
                              JObj [("deliverySites",
                                     JArr [JObj [("consumption",
                                                  JObj [("meteringPointNo",
                                                         JStr "735999")])]])])])]
                   Sim.unauthorized [], [])
                _ _ eq_refl eq_refl) as Hrun.
  cbv zeta in Hrun. destruct Hrun as (_ & _ & _ & _ & _ & Hsites & _).
  exact (proj1 (Hsites _ _ _ _ eq_refl eq_refl eq_refl eq_refl)).
Defined.


(** [customer_id_sources]: the session's customer id wins over a token. *)
Lemma customer_id_sources_witness :
  let data := JObj [("user", JObj [("customerId", JStr "1234567")])] in
  @get_customer_id Sim.world (SimModels.identity (Some data) (Some "header.payload"))
    Sim.externals SimModels.models (Sim.quiet [] Sim.unauthorized [], [])
  = ((Sim.quiet [] Sim.unauthorized [], []), Ret (JStr "1234567")).
Proof.
  cbv zeta.
  exact (proj1 (proj2
           (@customer_id_sources Sim.world
              (SimModels.identity
                 (Some (JObj [("user", JObj [("customerId", JStr "1234567")])]))
                 (Some "header.payload"))
              Sim.externals SimModels.models (Sim.quiet [] Sim.unauthorized [], [])))
           _ _ _ eq_refl eq_refl eq_refl eq_refl).
Defined.

(** [consumption_needs_metering_points] on a session with no user. *)
Lemma consumption_needs_metering_points_witness :
  let world := Sim.quiet [SimModels.session (JObj [("expires", JStr "2023-06-15")])]
                 (Sim.success (JArr [])) [] in
  let out := @get_total_consumption Sim.world (Sim.collaborators Sim.session_mode)
               Sim.externals SimModels.models "SV" (world, []) in
  snd out = raise_ APIError "No metering points found for customer"
  /\ count_gets (snd (fst out)) = 1%nat
  /\ fetch_ranges (snd (fst out)) = [].
Proof.
  cbv zeta.
  pose proof (@consumption_needs_metering_points Sim.world
                (Sim.collaborators Sim.session_mode) Sim.externals SimModels.models
                "SV" _
                (Sim.quiet [SimModels.session (JObj [("expires", JStr "2023-06-15")])]
                   (Sim.success (JArr [])) [], [])
                _ _ _ None None "MONTH" eq_refl eq_refl eq_refl eq_refl)
    as (_ & _ & Htotal & Hranges).
  rewrite Htotal. cbn [fst snd]. split; [reflexivity|].
  split; [reflexivity | exact Hranges].
Defined.
